(** * car_fleet_api: the Flask resources over the cars, drivers and
    positions tables, as functions on an explicit database state.

    Each resource method of [car_fleet_api.py] becomes a function that takes
    the committed database, the URL arguments and the decoded JSON body, and
    gives back the database after [db.session.commit()] together with the
    value the method returns (a body and an HTTP status).  The two things the
    program reads from outside, [datetime.now()] and the reply of the
    Nominatim request, are arguments of the method that reads them. *)

From Stdlib Require Import ZArith String Floats.PrimFloat.
From stdpp Require Import gmap strings list sorting.

Set Warnings "-register-all".
Local Open Scope Z_scope.

(** ** Python values

    What [request.get_json()] and [requests.get(url).json()] hand to the
    program: the objects Python's [json] module builds.  A JSON number with a
    fraction or an exponent is a [float] (the tokens [NaN] and [Infinity] are
    floats too); one without is an [int].  The [s] of [PyStr s] is the text
    in UTF-8: a [str] with an unpaired surrogate, which has no UTF-8 form,
    is not among these values. *)

Inductive pyval : Type :=
| PyNone
| PyBool (b : bool)
| PyInt (z : Z)
| PyFloat (f : float)
| PyStr (s : string)
| PyList (l : list pyval)
| PyDict (d : gmap string pyval).

(** [bool(v)], the test behind [if v] and [not v]. *)
Definition truthy (v : pyval) : bool :=
  match v with
  | PyNone => false
  | PyBool b => b
  | PyInt z => negb (z =? 0)
  | PyFloat f => negb (PrimFloat.eqb f 0%float)
  | PyStr s => negb (String.eqb s "")
  | PyList l => match l with [] => false | _ :: _ => true end
  | PyDict d => match map_to_list d with [] => false | _ :: _ => true end
  end.

(** [isinstance(v, float)]: exact on the type, so an [int] is not a float. *)
Definition isinstance_float (v : pyval) : bool :=
  match v with
  | PyFloat _ => true
  | _ => false
  end.

(** [d.get(key)] and [d.get(key, dflt)] on a dict. *)
Definition dict_get (d : gmap string pyval) (key : string) (dflt : pyval) : pyval :=
  default dflt (d !! key).

(** ** Exceptions and the results of code that may raise *)

Inductive exn : Type :=
| RequestException   (* requests: connection error, timeout, ... *)
| JSONDecodeError    (* the reply is not JSON *)
| TypeError
| KeyError
| IndexError
| AttributeError
| IntegrityError.    (* sqlalchemy: a NOT NULL column was given NULL *)

(** [Unspecified]: the program returns or raises, and which of the two, and
    with what, hangs on a conversion made by the storage driver, which is
    not part of the program. *)
Inductive outcome (A : Type) : Type :=
| Ok (a : A)
| Raise (e : exn)
| Unspecified.
Arguments Ok {A} a.
Arguments Raise {A} e.
Arguments Unspecified {A}.

#[global] Instance outcome_ret : MRet outcome := fun A a => Ok a.

#[global] Instance outcome_bind : MBind outcome := fun A B k m =>
  match m with
  | Ok a => k a
  | Raise e => Raise e
  | Unspecified => Unspecified
  end.

(** [v[0]] *)
Definition subscript0 (v : pyval) : outcome pyval :=
  match v with
  | PyList (x :: _) => Ok x
  | PyList [] => Raise IndexError
  | PyStr (String c _) => Ok (PyStr (String c EmptyString))
  | PyStr EmptyString => Raise IndexError
  | PyDict _ => Raise KeyError
  | PyNone | PyBool _ | PyInt _ | PyFloat _ => Raise TypeError
  end.

(** [v.get(key, dflt)]: only a dict has the method. *)
Definition method_get (v : pyval) (key : string) (dflt : pyval) : outcome pyval :=
  match v with
  | PyDict d => Ok (dict_get d key dflt)
  | _ => Raise AttributeError
  end.

(** The reply to [get(url).json()]: the decoded document, or the exception
    that [get] or [.json()] raised. *)
Inductive fetch : Type :=
| Fetched (response : pyval)
| Failed (e : exn).

Definition datetime := Z.

(** ** The models

    A row object has [id = None] from its construction until the session
    flushes it; a row read from a table has the key the table gave it. *)

Module CarModel.
Record t : Type := mk {
  id : option Z;
  license_plate : string;
  driver_id : option Z
}.

Record json_t : Type := mk_json {
  json_id : option Z;
  json_license_plate : string;
  json_driver_id : option Z
}.

Definition json (self : t) : json_t :=
  {| json_id := id self;
     json_license_plate := license_plate self;
     json_driver_id := driver_id self |}.

(** [cls.query.filter_by(kwargs).first()]: the first row, in table
    order, that meets the keyword test. *)
Definition find_by_attribute (kwargs : t -> bool) (query : list t) : option t :=
  head (filter (fun row => kwargs row = true) query).

Definition with_driver_id (self : t) (d : option Z) : t :=
  {| id := id self; license_plate := license_plate self; driver_id := d |}.
End CarModel.

Module DriverModel.
Record t : Type := mk {
  id : option Z;
  name : string
}.

Definition find_by_attribute (kwargs : t -> bool) (query : list t) : option t :=
  head (filter (fun row => kwargs row = true) query).
End DriverModel.

Module PositionModel.
Record t : Type := mk {
  id : option Z;
  car_id : option Z;
  latitude : float;
  longitude : float;
  date : datetime;
  address : pyval
}.

(** The [json()] view keeps the columns; [date] is rendered by
    [isoformat()] when the body is serialised. *)
Record json_t : Type := mk_json {
  json_id : option Z;
  json_car_id : option Z;
  json_latitude : float;
  json_longitude : float;
  json_date : datetime;
  json_address : pyval
}.

Definition json (self : t) : json_t :=
  {| json_id := id self;
     json_car_id := car_id self;
     json_latitude := latitude self;
     json_longitude := longitude self;
     json_date := date self;
     json_address := address self |}.

Definition with_address (self : t) (a : pyval) : t :=
  {| id := id self; car_id := car_id self; latitude := latitude self;
     longitude := longitude self; date := date self; address := a |}.

(** [resolve_address]: [reply] is what [get(url).json()] gives for the
    coordinates of [self]. *)
Definition resolve_address (self : t) (reply : fetch) : outcome t :=
  match reply with
  | Failed e => Raise e
  | Fetched response =>
      if truthy response then
        first ← subscript0 response;
        a ← method_get first "display_name" (PyStr "");
        Ok (with_address self a)
      else Ok (with_address self (PyStr ""))
  end.
End PositionModel.

(** ** The database

    The three tables of [data.db], each in row order: the order [.first()]
    and [.all()] see when the query has no [order_by].  [db] is the
    committed state; a method that returns or raises before its
    [db.session.commit()], or whose commit raises, leaves it as it was. *)

Record db : Type := mk_db {
  cars : list CarModel.t;
  drivers : list DriverModel.t;
  positions : list PositionModel.t
}.

(** The key an integer primary key column gives a new row: one more than
    the largest key in the table. *)
Definition next_id (ids : list (option Z)) : Z :=
  1 + foldr (fun i m => Z.max (default 0 i) m) 0 ids.

(** [db.session.add(car); db.session.commit()] *)
Definition add_car (st : db) (car : CarModel.t) : db * CarModel.t :=
  let car' := CarModel.mk (Some (next_id (CarModel.id <$> cars st)))
                          (CarModel.license_plate car) (CarModel.driver_id car) in
  (mk_db (cars st ++ [car']) (drivers st) (positions st), car').

(** What a [Float] column keeps of a float: the float itself, the
    infinities included, but for the sign of zero. *)
Definition real_value (f : float) : float :=
  if PrimFloat.eqb f 0%float then 0%float else f.

(** Binding a float to a [Float] column declared [nullable=False]: NaN is
    bound as NULL, which the column refuses, and the commit raises. *)
Definition Float_column (f : float) : outcome float :=
  if PrimFloat.is_nan f then Raise IntegrityError else Ok (real_value f).

(** Binding a value to the [String] column of the address: text and NULL
    are kept as they are.  A value of another type is converted to text or
    refused by the storage driver. *)
Definition String_column (v : pyval) : outcome pyval :=
  match v with
  | PyStr _ | PyNone => Ok v
  | PyBool _ | PyInt _ | PyFloat _ | PyList _ | PyDict _ => Unspecified
  end.

(** [db.session.add(car_position); db.session.commit()] *)
Definition add_position (st : db) (p : PositionModel.t)
  : outcome (db * PositionModel.t) :=
  a ← String_column (PositionModel.address p);
  lat ← Float_column (PositionModel.latitude p);
  lon ← Float_column (PositionModel.longitude p);
  let p' := PositionModel.mk (Some (next_id (PositionModel.id <$> positions st)))
              (PositionModel.car_id p) lat lon (PositionModel.date p) a in
  Ok (mk_db (cars st) (drivers st) (positions st ++ [p']), p').

(** [db.session.commit()] after an attribute of the loaded [car] was set:
    the row with the key of [car] takes its columns. *)
Definition update_car (st : db) (car : CarModel.t) : db :=
  mk_db ((fun row => if decide (CarModel.id row = CarModel.id car) then car else row)
           <$> cars st)
        (drivers st) (positions st).

(** [db.session.delete(car); db.session.commit()]: the row with the key of
    [car] goes; no relationship is declared, so nothing else is touched. *)
Definition delete_car (st : db) (car : CarModel.t) : db :=
  mk_db (filter (fun row => CarModel.id row ≠ CarModel.id car) (cars st))
        (drivers st) (positions st).

(** The keyword tests the program passes to [find_by_attribute].  The keys
    of the tables are 64-bit integers: a key outside that range cannot be
    bound to the query, which then raises instead of finding no row; the
    tests below say nothing of such keys, and the statements about a
    driver that is not found bound the key (see [int64]). *)
Definition license_plate_is (plate : string) (row : CarModel.t) : bool :=
  String.eqb (CarModel.license_plate row) plate.

Definition driver_id_is (key : option Z) (row : DriverModel.t) : bool :=
  bool_decide (DriverModel.id row = key).

(** What an [Integer] column takes from a decoded JSON value: [None] is
    NULL, an [int] is itself, a [bool] is the int it subclasses.  Values of
    the other JSON types are converted by the storage driver, which is not
    part of the program: for them the binding is undefined here. *)
Definition Integer (v : pyval) : option (option Z) :=
  match v with
  | PyNone => Some None
  | PyInt z => Some (Some z)
  | PyBool b => Some (Some (Z.b2z b))
  | PyFloat _ | PyStr _ | PyList _ | PyDict _ => None
  end.

(** ** Responses: what a resource method returns, body and status *)

Inductive body : Type :=
| Message (message : string)
| CarJson (car : CarModel.json_t)
| CarsJson (cars : list CarModel.json_t)
| PositionsJson (positions : list PositionModel.json_t).

Definition response : Type := body * Z.

(** ** The resources *)

Module Car.
Definition get (st : db) (plate : string) : response :=
  match CarModel.find_by_attribute (license_plate_is plate) (cars st) with
  | Some car => (CarJson (CarModel.json car), 200)
  | None => (Message "Car not found", 404)
  end.

(** [None]: the body carries a [driver_id] the [Integer] column has no
    binding for (see [Integer]). *)
Definition post (st : db) (plate : string) (data : gmap string pyval)
  : option (db * response) :=
  match CarModel.find_by_attribute (license_plate_is plate) (cars st) with
  | Some _ => Some (st, (Message "Car already exists", 400))
  | None =>
      let driver_id := dict_get data "driver_id" PyNone in
      key ← Integer driver_id;
      if truthy driver_id
         && negb (bool_decide (is_Some
              (DriverModel.find_by_attribute (driver_id_is key) (drivers st))))
      then Some (st, (Message "Driver not found", 400))
      else
        let car := CarModel.mk None plate key in
        let '(st', car) := add_car st car in
        Some (st', (CarJson (CarModel.json car), 201))
  end.

Definition put (st : db) (plate : string) (data : gmap string pyval)
  : option (db * response) :=
  let driver_id := dict_get data "driver_id" PyNone in
  match CarModel.find_by_attribute (license_plate_is plate) (cars st) with
  | None => Some (st, (Message "Car not found", 404))
  | Some car =>
      key ← Integer driver_id;
      if truthy driver_id
         && negb (bool_decide (is_Some
              (DriverModel.find_by_attribute (driver_id_is key) (drivers st))))
      then Some (st, (Message "Driver not found", 400))
      else
        let car := CarModel.with_driver_id car key in
        Some (update_car st car, (CarJson (CarModel.json car), 200))
  end.

Definition delete (st : db) (plate : string) : db * response :=
  match CarModel.find_by_attribute (license_plate_is plate) (cars st) with
  | None => (st, (Message "Car not found", 404))
  | Some car => (delete_car st car, (Message "Car deleted", 200))
  end.
End Car.

Module CarList.
Definition get (st : db) : response :=
  (CarsJson (CarModel.json <$> cars st), 200).
End CarList.

Module CarPosition.
(** [now] is the value of [datetime.now()]; [nominatim lat lon] is what
    [get(url).json()] gives for the URL built from the coordinates.  The
    match on [PyFloat] is the [isinstance(..., float)] test on both. *)
Definition post (st : db) (plate : string) (data : gmap string pyval)
    (now : datetime) (nominatim : float -> float -> fetch)
  : outcome (db * response) :=
  match CarModel.find_by_attribute (license_plate_is plate) (cars st) with
  | None => Ok (st, (Message "Car not found", 404))
  | Some car =>
      let latitude := dict_get data "latitude" PyNone in
      let longitude := dict_get data "longitude" PyNone in
      match latitude, longitude with
      | PyFloat lat, PyFloat lon =>
          let car_position :=
            PositionModel.mk None (CarModel.id car) lat lon now PyNone in
          car_position ← PositionModel.resolve_address car_position
                            (nominatim lat lon);
          stored ← add_position st car_position;
          Ok (stored.1, (Message "Position saved", 201))
      | _, _ => Ok (st, (Message "Invalid latitude or longitude", 400))
      end
  end.
End CarPosition.

Module CarPositions.
Definition get (st : db) (plate : string) : response :=
  match CarModel.find_by_attribute (license_plate_is plate) (cars st) with
  | None => (Message "Car not found", 404)
  | Some car =>
      (PositionsJson
         (PositionModel.json <$>
            filter (fun p => PositionModel.car_id p = CarModel.id car)
                   (positions st)),
       200)
  end.
End CarPositions.

Module AssignDriver.
Definition post (st : db) (plate : string) (driver_id : Z) : db * response :=
  match CarModel.find_by_attribute (license_plate_is plate) (cars st) with
  | None => (st, (Message "Car not found", 404))
  | Some car =>
      match DriverModel.find_by_attribute (driver_id_is (Some driver_id))
              (drivers st) with
      | None => (st, (Message "Driver not found", 404))
      | Some _ =>
          let car := CarModel.with_driver_id car (Some driver_id) in
          (update_car st car, (Message "Driver assigned", 200))
      end
  end.

Definition delete (st : db) (plate : string) (driver_id : Z) : db * response :=
  match CarModel.find_by_attribute (license_plate_is plate) (cars st) with
  | None => (st, (Message "Car not found", 404))
  | Some car =>
      if bool_decide (CarModel.driver_id car ≠ Some driver_id)
      then (st, (Message "This assignment does not exist", 404))
      else
        let car := CarModel.with_driver_id car None in
        (update_car st car, (Message "Driver assignment deleted", 200))
  end.
End AssignDriver.

(** ** Vocabulary of the statements *)

(** A coordinate as the specification asks for it: a float that is neither
    NaN nor infinite. *)
Definition finite_float (v : pyval) : bool :=
  match v with
  | PyFloat f => PrimFloat.is_finite f
  | _ => false
  end.

(** The body holds the record of position [p]. *)
Definition carries_position (b : body) (p : PositionModel.t) : Prop :=
  match b with
  | PositionsJson js => PositionModel.json p ∈ js
  | Message _ | CarJson _ | CarsJson _ => False
  end.

Definition by_date (p q : PositionModel.t) : Prop :=
  PositionModel.date p ≤ PositionModel.date q.

Definition json_by_date (p q : PositionModel.json_t) : Prop :=
  PositionModel.json_date p ≤ PositionModel.json_date q.

(** A car with this plate is in the cars table. *)
Definition known (st : db) (plate : string) : Prop :=
  plate ∈ CarModel.license_plate <$> cars st.

(** The integers a key column can hold and a query can be asked for. *)
Definition int64 (z : Z) : Prop := - 2 ^ 63 ≤ z < 2 ^ 63.

(** An address the [String] column keeps as it is: text or null. *)
Definition text_or_null (v : pyval) : bool :=
  match v with
  | PyStr _ | PyNone => true
  | PyBool _ | PyInt _ | PyFloat _ | PyList _ | PyDict _ => false
  end.

(** A driver with this key is in the drivers table. *)
Definition driver_exists (st : db) (driver_id : Z) : Prop :=
  Some driver_id ∈ DriverModel.id <$> drivers st.

(** ** Sample data *)

Module Sample.
Definition xyz999 : CarModel.t := CarModel.mk (Some 1) "XYZ999" None.
Definition alice : DriverModel.t := DriverModel.mk (Some 1) "Alice".

(** One car without a driver, one driver, no position. *)
Definition fleet : db := mk_db [xyz999] [alice] [].

(** One car, no driver at all. *)
Definition no_driver : db := mk_db [xyz999] [] [].

(** The car is driven by Alice. *)
Definition assigned : db := mk_db [CarModel.mk (Some 1) "XYZ999" (Some 1)] [alice] [].

(** The car has a position on record. *)
Definition tracked : db :=
  mk_db [xyz999] [alice]
    [PositionModel.mk (Some 1) (Some 1) 40.5%float (-74.25)%float 7 (PyStr "")].

(** [{"driver_id": 0}] and [{"driver_id": null}] *)
Definition driver_zero : gmap string pyval := {[ "driver_id" := PyInt 0 ]}.
Definition driver_null : gmap string pyval := {[ "driver_id" := PyNone ]}.

Definition new_york : gmap string pyval :=
  {[ "latitude" := PyFloat 40.5%float; "longitude" := PyFloat (-74.25)%float ]}.

(** [{"latitude": Infinity, "longitude": 1.5}] *)
Definition infinite_latitude : gmap string pyval :=
  {[ "latitude" := PyFloat infinity; "longitude" := PyFloat 1.5%float ]}.

(** [{"latitude": NaN, "longitude": 1.5}] *)
Definition nan_latitude : gmap string pyval :=
  {[ "latitude" := PyFloat nan; "longitude" := PyFloat 1.5%float ]}.

(** [{"latitude": 45, "longitude": 1.5}]: the latitude is an int. *)
Definition int_latitude : gmap string pyval :=
  {[ "latitude" := PyInt 45; "longitude" := PyFloat 1.5%float ]}.

Definition no_results (lat lon : float) : fetch := Fetched (PyList []).
Definition unreachable (lat lon : float) : fetch := Failed RequestException.
Definition main_street (lat lon : float) : fetch :=
  Fetched (PyList [PyDict {[ "display_name" := PyStr "Main St" ]}]).
End Sample.

(** ** The routes

    One request per route of [api.add_resource] and method of its resource.
    A position request carries what the program reads from outside while it
    serves it: the clock and the geocoder's replies. *)

Inductive request : Type :=
| GetCars                                                   (* GET /cars *)
| GetCar (plate : string)                                   (* GET /car/<plate> *)
| PostCar (plate : string) (data : gmap string pyval)       (* POST /car/<plate> *)
| PutCar (plate : string) (data : gmap string pyval)        (* PUT /car/<plate> *)
| DeleteCar (plate : string)                                (* DELETE /car/<plate> *)
| PostPosition (plate : string) (data : gmap string pyval)
    (now : datetime) (nominatim : float -> float -> fetch)  (* POST /car/<plate>/position *)
| GetPositions (plate : string)                             (* GET /car/<plate>/positions *)
| PostDriver (plate : string) (driver_id : Z)               (* POST /car/<plate>/driver/<id> *)
| DeleteDriver (plate : string) (driver_id : Z).            (* DELETE /car/<plate>/driver/<id> *)

(** The resource method a request is routed to.  [None] as for [Car.post]. *)
Definition serve (st : db) (req : request) : option (outcome (db * response)) :=
  match req with
  | GetCars => Some (Ok (st, CarList.get st))
  | GetCar plate => Some (Ok (st, Car.get st plate))
  | PostCar plate data => Ok <$> Car.post st plate data
  | PutCar plate data => Ok <$> Car.put st plate data
  | DeleteCar plate => Some (Ok (Car.delete st plate))
  | PostPosition plate data now nominatim =>
      Some (CarPosition.post st plate data now nominatim)
  | GetPositions plate => Some (Ok (st, CarPositions.get st plate))
  | PostDriver plate driver_id => Some (Ok (AssignDriver.post st plate driver_id))
  | DeleteDriver plate driver_id => Some (Ok (AssignDriver.delete st plate driver_id))
  end.

(** The committed database once the request is served: a request that
    raises commits nothing.  [None] where [serve] gives [None] or an
    unspecified result. *)
Definition committed (st : db) (req : request) : option db :=
  match serve st req with
  | Some (Ok (st', _)) => Some st'
  | Some (Raise _) => Some st
  | Some Unspecified | None => None
  end.

(** Requests served one after the other. *)
Fixpoint run (st : db) (reqs : list request) : option db :=
  match reqs with
  | [] => Some st
  | req :: reqs => st' ← committed st req; run st' reqs
  end.

(** What the table declarations ask of the rows: [primary_key=True] on
    the [id] columns of cars and positions, [unique=True] on
    [license_plate]. *)
Definition consistent (st : db) : Prop :=
  NoDup (CarModel.id <$> cars st)
  ∧ NoDup (CarModel.license_plate <$> cars st)
  ∧ NoDup (PositionModel.id <$> positions st).

(** The driver of the car found under a plate: [None] when there is no
    such car, [Some None] when the car has no driver. *)
Definition driver_of (st : db) (plate : string) : option (option Z) :=
  CarModel.driver_id <$>
    CarModel.find_by_attribute (license_plate_is plate) (cars st).

(** The plate a request addresses when it is one of the three that set a
    car's driver. *)
Definition sets_driver_of (req : request) : option string :=
  match req with
  | PutCar plate _ | PostDriver plate _ | DeleteDriver plate _ => Some plate
  | GetCars | GetCar _ | PostCar _ _ | DeleteCar _ | PostPosition _ _ _ _
  | GetPositions _ => None
  end.

Module Scenario.
(** Two cars, the second driven by Alice, and a position of each. *)
Definition abc123 : CarModel.t := CarModel.mk (Some 2) "ABC123" (Some 1).

Definition two_cars : db :=
  mk_db [Sample.xyz999; abc123] [Sample.alice]
    [PositionModel.mk (Some 1) (Some 1) 40.5%float (-74.25)%float 7 (PyStr "");
     PositionModel.mk (Some 2) (Some 2) 1.5%float 2.5%float 8 (PyStr "Main St")].

(** [{"driver_id": 1}], [{"driver_id": 9}] and a body with a [date]. *)
Definition driver_one : gmap string pyval := {[ "driver_id" := PyInt 1 ]}.
Definition driver_nine : gmap string pyval := {[ "driver_id" := PyInt 9 ]}.
Definition backdated : gmap string pyval :=
  <[ "date" := PyStr "1999-01-01T00:00:00" ]> Sample.new_york.

(** A reply with two results, and replies that are not result lists. *)
Definition two_results (lat lon : float) : fetch :=
  Fetched (PyList [PyDict {[ "display_name" := PyStr "Main St" ]};
                   PyDict {[ "display_name" := PyStr "Side St" ]}]).
Definition error_document (lat lon : float) : fetch :=
  Fetched (PyDict {[ "error" := PyStr "Unable to geocode" ]}).

(** A car is created, tracked, deleted, and another car is created. *)
Definition abc123_position : PositionModel.t :=
  PositionModel.mk (Some 1) (Some 2) 40.5%float (-74.25)%float 7 (PyStr "Main St").
Definition created : db :=
  mk_db [Sample.xyz999; CarModel.mk (Some 2) "ABC123" None] [Sample.alice] [].
Definition created_tracked : db :=
  mk_db [Sample.xyz999; CarModel.mk (Some 2) "ABC123" None] [Sample.alice]
    [abc123_position].
Definition deleted : db := mk_db [Sample.xyz999] [Sample.alice] [abc123_position].
Definition recreated : db :=
  mk_db [Sample.xyz999; CarModel.mk (Some 2) "DEF456" None] [Sample.alice]
    [abc123_position].

(** Create a car, track it, hand it to Alice, take it back, delete it. *)
Definition session : list request :=
  [PostCar "ABC123" Sample.driver_null;
   PostPosition "ABC123" Sample.new_york 7 Sample.main_street;
   PostPosition "ABC123" Sample.new_york 8 Sample.unreachable;
   PostDriver "ABC123" 1;
   GetCar "ABC123";
   DeleteDriver "ABC123" 1;
   DeleteCar "XYZ999"].
End Scenario.

(** * Properties *)

(** ** Looking rows up *)

Lemma find_car_spec plate (l : list CarModel.t) car :
  CarModel.find_by_attribute (license_plate_is plate) l = Some car →
  ∃ l1 l2, l = l1 ++ car :: l2
    ∧ CarModel.license_plate car = plate
    ∧ Forall (fun row => license_plate_is plate row = false) l1.
Proof.
  unfold CarModel.find_by_attribute. intros Hhead.
  pose proof (head_Some_elem_of _ _ Hhead) as Hin.
  apply list_elem_of_filter in Hin as [Hplate _].
  apply head_filter_Some in Hhead as (l1 & l2 & -> & Hl1).
  exists l1, l2. split; [done|]. split.
  - by apply String.eqb_eq.
  - eapply Forall_impl; [exact Hl1|]. intros row Hrow. by apply not_true_is_false.
Qed.

Lemma find_car_plate plate (l : list CarModel.t) car :
  CarModel.find_by_attribute (license_plate_is plate) l = Some car →
  CarModel.license_plate car = plate.
Proof. intros H. by destruct (find_car_spec _ _ _ H) as (?&?&?&?&?). Qed.

Lemma find_car_None plate (l : list CarModel.t) :
  CarModel.find_by_attribute (license_plate_is plate) l = None ↔
  plate ∉ CarModel.license_plate <$> l.
Proof.
  unfold CarModel.find_by_attribute. rewrite head_None. split.
  - intros Hnil (car & -> & Hcar)%list_elem_of_fmap.
    eapply filter_nil_not_elem_of; [exact Hnil| |exact Hcar].
    by apply String.eqb_refl.
  - intros Hnot. induction l as [|x l IH]; [done|].
    rewrite fmap_cons, not_elem_of_cons in Hnot. destruct Hnot as [Hx Hl].
    rewrite filter_cons_False; [by apply IH|].
    unfold license_plate_is. rewrite String.eqb_eq. congruence.
Qed.

Lemma known_find st plate :
  known st plate ↔
  ∃ car, CarModel.find_by_attribute (license_plate_is plate) (cars st) = Some car.
Proof.
  unfold known. split.
  - intros Hin.
    destruct (CarModel.find_by_attribute _ _) as [car|] eqn:Hcar; [by exists car|].
    by apply find_car_None in Hcar.
  - intros [car Hcar] . destruct (find_car_spec _ _ _ Hcar) as (l1 & l2 & -> & <- & _).
    rewrite fmap_app, fmap_cons. set_solver.
Qed.

Lemma find_driver_None d (l : list DriverModel.t) :
  DriverModel.find_by_attribute (driver_id_is (Some d)) l = None ↔
  Some d ∉ DriverModel.id <$> l.
Proof.
  unfold DriverModel.find_by_attribute. rewrite head_None. split.
  - intros Hnil (row & Hid & Hrow)%list_elem_of_fmap.
    eapply filter_nil_not_elem_of; [exact Hnil| |exact Hrow].
    unfold driver_id_is. by apply bool_decide_eq_true.
  - intros Hnot. induction l as [|x l IH]; [done|].
    rewrite fmap_cons, not_elem_of_cons in Hnot. destruct Hnot as [Hx Hl].
    rewrite filter_cons_False; [by apply IH|].
    unfold driver_id_is. rewrite bool_decide_eq_true. congruence.
Qed.

Lemma driver_exists_find st d :
  driver_exists st d ↔
  ∃ row, DriverModel.find_by_attribute (driver_id_is (Some d)) (drivers st) = Some row.
Proof.
  unfold driver_exists. split.
  - intros Hin.
    destruct (DriverModel.find_by_attribute _ _) as [row|] eqn:Hrow; [by exists row|].
    by apply find_driver_None in Hrow.
  - intros [row Hrow].
    destruct (decide (Some d ∈ DriverModel.id <$> drivers st)) as [|Hnot]; [done|].
    apply find_driver_None in Hnot. congruence.
Qed.

(** ** Position ingestion *)

Lemma isinstance_float_spec v : isinstance_float v = true ↔ ∃ f, v = PyFloat f.
Proof.
  split.
  - destruct v; try discriminate. intros _. by eexists.
  - by intros [f ->].
Qed.

(** What [post] does once the car is found and both coordinates are
    floats: everything then hangs on the geocoding reply. *)
Lemma position_post_floats st plate car data now nominatim lat lon :
  CarModel.find_by_attribute (license_plate_is plate) (cars st) = Some car →
  data !! "latitude" = Some (PyFloat lat) →
  data !! "longitude" = Some (PyFloat lon) →
  CarPosition.post st plate data now nominatim =
    (car_position ← PositionModel.resolve_address
        (PositionModel.mk None (CarModel.id car) lat lon now PyNone)
        (nominatim lat lon);
     stored ← add_position st car_position;
     Ok (stored.1, (Message "Position saved", 201))).
Proof.
  intros Hcar Hlat Hlon. unfold CarPosition.post, dict_get.
  by rewrite Hcar, Hlat, Hlon.
Qed.

(** The commit of a position: it goes through when the address is text or
    null and no coordinate is NaN, and then appends the row under a fresh
    key, the coordinates kept up to the sign of zero. *)
Lemma add_position_stores st p :
  text_or_null (PositionModel.address p) = true →
  PrimFloat.is_nan (PositionModel.latitude p) = false →
  PrimFloat.is_nan (PositionModel.longitude p) = false →
  add_position st p =
    Ok (mk_db (cars st) (drivers st)
          (positions st ++
             [PositionModel.mk (Some (next_id (PositionModel.id <$> positions st)))
                (PositionModel.car_id p) (real_value (PositionModel.latitude p))
                (real_value (PositionModel.longitude p)) (PositionModel.date p)
                (PositionModel.address p)]),
        PositionModel.mk (Some (next_id (PositionModel.id <$> positions st)))
          (PositionModel.car_id p) (real_value (PositionModel.latitude p))
          (real_value (PositionModel.longitude p)) (PositionModel.date p)
          (PositionModel.address p)).
Proof.
  intros Htext Hlat Hlon. unfold add_position, Float_column. rewrite Hlat, Hlon.
  by destruct (PositionModel.address p).
Qed.

(** A commit that went through appended one row: the position under a
    fresh key, with its car and its date. *)
Lemma add_position_Ok st p st' p' :
  add_position st p = Ok (st', p') →
  st' = mk_db (cars st) (drivers st) (positions st ++ [p'])
  ∧ PositionModel.id p' = Some (next_id (PositionModel.id <$> positions st))
  ∧ PositionModel.car_id p' = PositionModel.car_id p
  ∧ PositionModel.date p' = PositionModel.date p.
Proof.
  unfold add_position.
  destruct (String_column _) as [a| |]; simpl; [|done..].
  destruct (Float_column (PositionModel.latitude p)) as [lat| |]; simpl; [|done..].
  destruct (Float_column (PositionModel.longitude p)) as [lon| |]; simpl; [|done..].
  by intros [= <- <-].
Qed.

Lemma is_finite_not_nan f : PrimFloat.is_finite f = true → PrimFloat.is_nan f = false.
Proof.
  unfold PrimFloat.is_finite. by destruct (PrimFloat.is_nan f).
Qed.

(** C1, as amended: with a known plate, when latitude or longitude is
    missing from the body or is not a float (null, an int, a string, ...),
    the method returns [Invalid latitude or longitude] with status 400 and
    the database is unchanged, so no position is created.  The test is on
    the type alone. *)
Theorem ingest_rejects_non_float st plate data now nominatim :
  known st plate →
  isinstance_float (dict_get data "latitude" PyNone) = false
    ∨ isinstance_float (dict_get data "longitude" PyNone) = false →
  CarPosition.post st plate data now nominatim =
    Ok (st, (Message "Invalid latitude or longitude", 400)).
Proof.
  intros [car Hcar]%known_find Hbad. unfold CarPosition.post. rewrite Hcar.
  destruct (dict_get data "latitude" PyNone) eqn:Elat;
    destruct (dict_get data "longitude" PyNone) eqn:Elon;
    try reflexivity.
  simpl in Hbad. by destruct Hbad.
Qed.

Lemma ingest_rejects_non_float_witness :
  CarPosition.post Sample.fleet "XYZ999" Sample.int_latitude 7 Sample.no_results =
    Ok (Sample.fleet, (Message "Invalid latitude or longitude", 400)).
Proof.
  apply ingest_rejects_non_float.
  - unfold known. simpl. constructor.
  - left. reflexivity.
Defined.

(** C1 as stated fails: a latitude of [Infinity] is not a finite float, yet
    the request is answered [Position saved] and the position is stored.
    A latitude of [NaN] passes the same test: whatever the geocoder
    replies, the answer is not [Invalid latitude or longitude]. *)
Lemma ingest_accepts_infinite_latitude :
  known Sample.fleet "XYZ999"
  ∧ finite_float (dict_get Sample.infinite_latitude "latitude" PyNone) = false
  ∧ CarPosition.post Sample.fleet "XYZ999" Sample.infinite_latitude 7 Sample.no_results =
      Ok (mk_db [Sample.xyz999] [Sample.alice]
            [PositionModel.mk (Some 1) (Some 1) infinity 1.5%float 7 (PyStr "")],
          (Message "Position saved", 201))
  ∧ finite_float (dict_get Sample.nan_latitude "latitude" PyNone) = false
  ∧ ∀ nominatim,
      CarPosition.post Sample.fleet "XYZ999" Sample.nan_latitude 7 nominatim ≠
        Ok (Sample.fleet, (Message "Invalid latitude or longitude", 400)).
Proof.
  split; [apply known_find; by exists Sample.xyz999|].
  split; [reflexivity|]. split; [reflexivity|]. split; [reflexivity|].
  intros nominatim.
  rewrite (position_post_floats Sample.fleet "XYZ999" Sample.xyz999 Sample.nan_latitude
             7 nominatim nan 1.5%float eq_refl eq_refl eq_refl).
  destruct (PositionModel.resolve_address _ _) as [p| |]; simpl; [|discriminate..].
  destruct (add_position _ p) as [[st' p']| |]; simpl; discriminate.
Qed.

(** [resolve_address] sets the address and nothing else. *)
Lemma resolve_address_fields self reply p :
  PositionModel.resolve_address self reply = Ok p →
  p = PositionModel.with_address self (PositionModel.address p).
Proof.
  unfold PositionModel.resolve_address. destruct reply as [response|e]; [|done].
  destruct (truthy response).
  - destruct (subscript0 response) as [first| |]; simpl; [|done..].
    destruct (method_get first "display_name" (PyStr "")) as [a| |]; simpl; [|done..].
    by intros [= <-].
  - by intros [= <-].
Qed.

(** A reply that Python takes for false (the empty list of results, but
    also [null] or [{}]) resolves to the empty address. *)
Lemma resolve_address_empty self response :
  truthy response = false →
  PositionModel.resolve_address self (Fetched response) =
    Ok (PositionModel.with_address self (PyStr "")).
Proof. intros H. unfold PositionModel.resolve_address. by rewrite H. Qed.

(** A first result without a [display_name] resolves to the empty address
    as well. *)
Lemma resolve_address_no_display_name self (first : gmap string pyval) rest :
  first !! "display_name" = None →
  PositionModel.resolve_address self (Fetched (PyList (PyDict first :: rest))) =
    Ok (PositionModel.with_address self (PyStr "")).
Proof.
  intros Hnone. unfold PositionModel.resolve_address. simpl.
  unfold dict_get. by rewrite Hnone.
Qed.

(** C2, as amended: with a known plate and valid coordinates, floats
    that are finite, a geocoding reply with no results still stores the
    position, with the empty string as its address (and the coordinates as
    the columns keep them, that is up to the sign of zero), and the request
    is answered [Position saved]; a lookup that fails (connection error,
    timeout, a reply that is not JSON) is not caught: the exception leaves
    [post], and nothing is stored. *)
Theorem ingest_geocoding_empty_or_failed st plate car data now nominatim lat lon :
  CarModel.find_by_attribute (license_plate_is plate) (cars st) = Some car →
  data !! "latitude" = Some (PyFloat lat) →
  data !! "longitude" = Some (PyFloat lon) →
  PrimFloat.is_finite lat = true →
  PrimFloat.is_finite lon = true →
  (∀ response, nominatim lat lon = Fetched response → truthy response = false →
     CarPosition.post st plate data now nominatim =
       Ok (mk_db (cars st) (drivers st)
             (positions st ++
                [PositionModel.mk (Some (next_id (PositionModel.id <$> positions st)))
                   (CarModel.id car) (real_value lat) (real_value lon) now (PyStr "")]),
           (Message "Position saved", 201)))
  ∧ (∀ e, nominatim lat lon = Failed e →
       CarPosition.post st plate data now nominatim = Raise e).
Proof.
  intros Hcar Hlat Hlon Hflat%is_finite_not_nan Hflon%is_finite_not_nan.
  rewrite (position_post_floats _ _ _ _ _ _ _ _ Hcar Hlat Hlon). split.
  - intros response -> Hfalse. rewrite resolve_address_empty by done. simpl.
    by rewrite add_position_stores.
  - by intros e ->.
Qed.

Lemma ingest_geocoding_empty_or_failed_witness :
  CarPosition.post Sample.fleet "XYZ999" Sample.new_york 7 Sample.no_results =
    Ok (mk_db [Sample.xyz999] [Sample.alice]
          [PositionModel.mk (Some 1) (Some 1) 40.5%float (-74.25)%float 7 (PyStr "")],
        (Message "Position saved", 201)).
Proof.
  exact (proj1 (ingest_geocoding_empty_or_failed Sample.fleet "XYZ999" Sample.xyz999
                  Sample.new_york 7 Sample.no_results 40.5%float (-74.25)%float
                  eq_refl eq_refl eq_refl eq_refl eq_refl)
               (PyList []) eq_refl eq_refl).
Defined.

(** C2 as stated fails: when the lookup raises, [post] raises with it; no
    database comes back, so the position is not stored. *)
Lemma ingest_lookup_failure_propagates :
  known Sample.fleet "XYZ999"
  ∧ CarPosition.post Sample.fleet "XYZ999" Sample.new_york 7 Sample.unreachable =
      Raise RequestException.
Proof. split; [apply known_find; by exists Sample.xyz999|reflexivity]. Qed.

(** X6: the body is read at [latitude] and [longitude] only: two bodies
    that agree there, whatever else they hold (a [date], say), are ingested
    alike. *)
Lemma ingest_reads_coordinates_only st plate data1 data2 now nominatim :
  data1 !! "latitude" = data2 !! "latitude" →
  data1 !! "longitude" = data2 !! "longitude" →
  CarPosition.post st plate data1 now nominatim =
  CarPosition.post st plate data2 now nominatim.
Proof.
  intros Hlat Hlon. unfold CarPosition.post, dict_get. by rewrite Hlat, Hlon.
Qed.

(** C5, as amended: with a known plate and valid coordinates, floats
    that are finite, when the geocoding step gives the position [p] with an
    address that is text or null, the ingest succeeds and the row stored is
    [p] under a fresh key: its date is the [now] the server read, whatever
    the body holds, its car is the car of the plate, its coordinates are
    those of the body as the columns keep them (up to the sign of zero).
    Cars and drivers are as before.  What the caller gets is the message
    [Position saved] with status 201, not the record. *)
Theorem ingest_stores_position_dated_now st plate car data now nominatim lat lon p :
  CarModel.find_by_attribute (license_plate_is plate) (cars st) = Some car →
  data !! "latitude" = Some (PyFloat lat) →
  data !! "longitude" = Some (PyFloat lon) →
  PrimFloat.is_finite lat = true →
  PrimFloat.is_finite lon = true →
  PositionModel.resolve_address
    (PositionModel.mk None (CarModel.id car) lat lon now PyNone)
    (nominatim lat lon) = Ok p →
  text_or_null (PositionModel.address p) = true →
  CarPosition.post st plate data now nominatim =
    Ok (mk_db (cars st) (drivers st)
          (positions st ++
             [PositionModel.mk (Some (next_id (PositionModel.id <$> positions st)))
                (CarModel.id car) (real_value lat) (real_value lon) now
                (PositionModel.address p)]),
        (Message "Position saved", 201))
  ∧ PositionModel.date p = now.
Proof.
  intros Hcar Hlat Hlon Hflat%is_finite_not_nan Hflon%is_finite_not_nan Hp Htext.
  rewrite (position_post_floats _ _ _ _ _ _ _ _ Hcar Hlat Hlon), Hp.
  rewrite (resolve_address_fields _ _ _ Hp) in Htext |- *. simpl in *.
  by rewrite add_position_stores.
Qed.

Lemma ingest_stores_position_dated_now_witness :
  CarPosition.post Sample.fleet "XYZ999" Sample.new_york 7 Sample.main_street =
    Ok (mk_db [Sample.xyz999] [Sample.alice]
          [PositionModel.mk (Some 1) (Some 1) 40.5%float (-74.25)%float 7
             (PyStr "Main St")],
        (Message "Position saved", 201)).
Proof.
  exact (proj1 (ingest_stores_position_dated_now Sample.fleet "XYZ999" Sample.xyz999
                  Sample.new_york 7 Sample.main_street 40.5%float (-74.25)%float
                  (PositionModel.mk None (Some 1) 40.5%float (-74.25)%float 7
                     (PyStr "Main St"))
                  eq_refl eq_refl eq_refl eq_refl eq_refl eq_refl eq_refl)).
Defined.

(** C5 as stated fails: the value returned by a successful ingest is a
    message; it holds no position record, the stored one included. *)
Lemma ingest_returns_message_only :
  ∃ st' b,
    CarPosition.post Sample.fleet "XYZ999" Sample.new_york 7 Sample.main_street =
      Ok (st', (b, 201))
    ∧ positions st' =
        [PositionModel.mk (Some 1) (Some 1) 40.5%float (-74.25)%float 7 (PyStr "Main St")]
    ∧ b = Message "Position saved"
    ∧ ∀ p, ¬ carries_position b p.
Proof.
  eexists _, _. split; [reflexivity|]. split; [reflexivity|]. split; [reflexivity|].
  intros p Hp. exact Hp.
Qed.

(** ** Listing the positions of a car *)

Lemma by_date_transitive : Transitive by_date.
Proof. unfold by_date. intros p q r Hpq Hqr. lia. Qed.

Lemma StronglySorted_filter {A} (R : relation A) (P : A → Prop)
    `{!∀ x, Decision (P x)} (l : list A) :
  StronglySorted R l → StronglySorted R (filter P l).
Proof.
  induction 1 as [|x l Hl IH Hx]; [constructor|].
  rewrite filter_cons. case_decide; [|done].
  constructor; [done|].
  apply Forall_forall. intros y Hy. apply list_elem_of_filter in Hy as [_ Hy].
  rewrite Forall_forall in Hx. by apply Hx.
Qed.

Lemma Sorted_by_date_filter (P : PositionModel.t → Prop)
    `{!∀ x, Decision (P x)} (l : list PositionModel.t) :
  Sorted by_date l → Sorted by_date (filter P l).
Proof.
  intros Hl. apply StronglySorted_Sorted, StronglySorted_filter.
  by apply (@Sorted_StronglySorted _ _ by_date_transitive).
Qed.

(** C3, as amended: for an unknown plate the method returns [Car not
    found] with status 404; for a known one it returns, with status 200,
    the rows of the positions table that belong to the car, all of them and
    only them, in the order of the table.  No sort is applied: the list is
    ascending by date when the rows of the table are. *)
Theorem list_positions_in_table_order st plate :
  (¬ known st plate → CarPositions.get st plate = (Message "Car not found", 404))
  ∧ (∀ car,
       CarModel.find_by_attribute (license_plate_is plate) (cars st) = Some car →
       ∃ ps,
         CarPositions.get st plate = (PositionsJson (PositionModel.json <$> ps), 200)
         ∧ ps `sublist_of` positions st
         ∧ (∀ p, p ∈ ps ↔ p ∈ positions st ∧ PositionModel.car_id p = CarModel.id car)
         ∧ (Sorted by_date (positions st) →
            Sorted json_by_date (PositionModel.json <$> ps))).
Proof.
  split.
  - intros Hunknown. unfold CarPositions.get.
    destruct (CarModel.find_by_attribute _ _) as [car|] eqn:Hcar; [|done].
    destruct Hunknown. apply known_find. by exists car.
  - intros car Hcar.
    exists (filter (fun p => PositionModel.car_id p = CarModel.id car) (positions st)).
    split; [|split; [|split]].
    + unfold CarPositions.get. by rewrite Hcar.
    + apply sublist_filter.
    + intros p. rewrite list_elem_of_filter. tauto.
    + intros Hsorted. eapply Sorted_fmap; [|by apply Sorted_by_date_filter].
      intros p q Hpq. exact Hpq.
Qed.

Lemma list_positions_in_table_order_witness :
  CarPositions.get Sample.fleet "NOPE" = (Message "Car not found", 404)
  ∧ ∃ ps, CarPositions.get Sample.tracked "XYZ999" =
            (PositionsJson (PositionModel.json <$> ps), 200)
          ∧ ps `sublist_of` positions Sample.tracked.
Proof.
  split.
  - apply (proj1 (list_positions_in_table_order Sample.fleet "NOPE")).
    unfold known. simpl. by intros [=]%list_elem_of_singleton.
  - destruct (proj2 (list_positions_in_table_order Sample.tracked "XYZ999")
                Sample.xyz999 eq_refl) as (ps & Hget & Hsub & _).
    exists ps. by split.
Defined.

(** X4: a stored position goes to the end of its car's list: after an
    ingestion answered 201 the list of the plate is the list from before
    followed by the new position, dated [now]. *)
Lemma list_positions_after_ingest st plate data now nominatim st' r js :
  CarPosition.post st plate data now nominatim = Ok (st', (r, 201)) →
  CarPositions.get st plate = (PositionsJson js, 200) →
  ∃ p, PositionModel.date p = now
       ∧ CarPositions.get st' plate = (PositionsJson (js ++ [PositionModel.json p]), 200).
Proof.
  unfold CarPosition.post, CarPositions.get.
  destruct (CarModel.find_by_attribute _ _) as [car|] eqn:Hcar; [|done].
  destruct (dict_get data "latitude" PyNone) as [| | |lat| | |]; try done.
  destruct (dict_get data "longitude" PyNone) as [| | |lon| | |]; try done.
  destruct (PositionModel.resolve_address _ _) as [p| |] eqn:Hp; simpl; [|done..].
  destruct (add_position st p) as [[st1 p']| |] eqn:Hadd; simpl; [|done..].
  intros [= <- _] [= <-].
  apply add_position_Ok in Hadd as (-> & _ & Hcar_id & Hdate).
  apply resolve_address_fields in Hp. rewrite Hp in Hcar_id, Hdate. simpl in *.
  exists p'. split; [done|]. rewrite Hcar.
  rewrite filter_app, fmap_app, filter_cons_True by done. reflexivity.
Qed.

(** C3 as stated fails: two positions ingested for one car, the second
    with the earlier date, are listed in order of ingestion, latest date
    first. *)
Lemma list_positions_not_by_date :
  ∃ st1 st2 js,
    CarPosition.post Sample.fleet "XYZ999" Sample.new_york 20 Sample.no_results =
      Ok (st1, (Message "Position saved", 201))
    ∧ CarPosition.post st1 "XYZ999" Sample.new_york 10 Sample.no_results =
        Ok (st2, (Message "Position saved", 201))
    ∧ CarPositions.get st2 "XYZ999" = (PositionsJson js, 200)
    ∧ PositionModel.json_date <$> js = [20; 10]
    ∧ ¬ Sorted json_by_date js.
Proof.
  eexists _, _, _. split; [reflexivity|]. split; [reflexivity|].
  split; [reflexivity|]. split; [reflexivity|].
  intros Hsorted. apply Sorted_inv in Hsorted as [_ Hhd].
  apply HdRel_inv in Hhd. unfold json_by_date in Hhd. simpl in Hhd. lia.
Qed.

(** ** Driver assignment *)

(** After the commit of a change to the car found under [plate], the
    lookup of [plate] gives the changed car. *)
Lemma find_car_update st plate car car' :
  CarModel.find_by_attribute (license_plate_is plate) (cars st) = Some car →
  CarModel.id car' = CarModel.id car →
  CarModel.license_plate car' = plate →
  CarModel.find_by_attribute (license_plate_is plate) (cars (update_car st car'))
    = Some car'.
Proof.
  intros Hcar Hid Hplate. unfold update_car. simpl.
  destruct (find_car_spec _ _ _ Hcar) as (l1 & l2 & -> & _ & Hl1). clear Hcar.
  assert (Hhit : license_plate_is plate car' = true)
    by (by apply String.eqb_eq).
  unfold CarModel.find_by_attribute.
  induction Hl1 as [|x l1 Hx _ IH]; simpl.
  - rewrite decide_True by done. by rewrite filter_cons_True.
  - case_decide.
    + by rewrite filter_cons_True.
    + rewrite filter_cons_False; [exact IH|]. by rewrite Hx.
Qed.

Lemma update_car_twice st car : update_car (update_car st car) car = update_car st car.
Proof.
  unfold update_car. simpl. f_equal.
  rewrite <-list_fmap_compose. apply list_fmap_ext. intros _ row _. simpl.
  destruct (decide (CarModel.id row = CarModel.id car)) as [Heq|Hne]; simpl.
  - by rewrite decide_True by done.
  - by rewrite decide_False by done.
Qed.

(** C6: for a known car, [unassign] with a driver that is not the car's
    current one, the car without a driver included, returns [This
    assignment does not exist] (404) and leaves the database as it was; with
    the car's current driver it clears the reference, and the car then has
    no driver; drivers and positions are untouched. *)
Theorem unassign_checks_current_driver st plate car d :
  CarModel.find_by_attribute (license_plate_is plate) (cars st) = Some car →
  (CarModel.driver_id car ≠ Some d →
     AssignDriver.delete st plate d =
       (st, (Message "This assignment does not exist", 404)))
  ∧ (CarModel.driver_id car = None →
     AssignDriver.delete st plate d =
       (st, (Message "This assignment does not exist", 404)))
  ∧ (CarModel.driver_id car = Some d →
     ∃ st',
       AssignDriver.delete st plate d = (st', (Message "Driver assignment deleted", 200))
       ∧ CarModel.driver_id <$>
           CarModel.find_by_attribute (license_plate_is plate) (cars st') = Some None
       ∧ drivers st' = drivers st
       ∧ positions st' = positions st).
Proof.
  intros Hcar. unfold AssignDriver.delete. rewrite Hcar.
  split; [|split].
  - intros Hne. by rewrite bool_decide_eq_true_2.
  - intros Hnone. rewrite bool_decide_eq_true_2; [done|]. by rewrite Hnone.
  - intros Heq. rewrite bool_decide_eq_false_2 by (intros Hne; by apply Hne).
    eexists. split; [reflexivity|]. split; [|done].
    erewrite find_car_update; [done|exact Hcar|done|].
    simpl. by eapply find_car_plate.
Qed.

Lemma unassign_checks_current_driver_witness :
  AssignDriver.delete Sample.fleet "XYZ999" 1 =
    (Sample.fleet, (Message "This assignment does not exist", 404))
  ∧ AssignDriver.delete Sample.assigned "XYZ999" 2 =
      (Sample.assigned, (Message "This assignment does not exist", 404))
  ∧ ∃ st', AssignDriver.delete Sample.assigned "XYZ999" 1 =
             (st', (Message "Driver assignment deleted", 200))
           ∧ CarModel.driver_id <$>
               CarModel.find_by_attribute (license_plate_is "XYZ999") (cars st')
             = Some None.
Proof.
  split; [|split].
  - exact (proj1 (proj2 (unassign_checks_current_driver Sample.fleet "XYZ999"
                           Sample.xyz999 1 eq_refl)) eq_refl).
  - apply (proj1 (unassign_checks_current_driver Sample.assigned "XYZ999"
                    (CarModel.mk (Some 1) "XYZ999" (Some 1)) 2 eq_refl)).
    simpl. intros [= ?].
  - destruct (unassign_checks_current_driver Sample.assigned "XYZ999"
                (CarModel.mk (Some 1) "XYZ999" (Some 1)) 1 eq_refl)
      as (_ & _ & Hclear).
    destruct (Hclear eq_refl) as (st' & Hdel & Hnone & _).
    exists st'. by split.
Defined.

(** C7: [assign] for a plate that no car has returns [Car not found]
    (404); for a known car and a driver key, one of the 64-bit integers a
    key can be, that no driver has it returns [Driver not found] (404); in
    both cases the database, the car's driver reference with it, is as
    before. *)
Theorem assign_unknown_car_or_driver st plate d :
  (¬ known st plate →
     AssignDriver.post st plate d = (st, (Message "Car not found", 404)))
  ∧ (known st plate → int64 d → ¬ driver_exists st d →
     AssignDriver.post st plate d = (st, (Message "Driver not found", 404))).
Proof.
  unfold known, driver_exists, AssignDriver.post. split.
  - intros Hcar%find_car_None. by rewrite Hcar.
  - intros [car Hcar]%known_find _ Hdrv%find_driver_None. by rewrite Hcar, Hdrv.
Qed.

Lemma assign_unknown_car_or_driver_witness :
  AssignDriver.post Sample.fleet "NOPE" 1 =
    (Sample.fleet, (Message "Car not found", 404))
  ∧ AssignDriver.post Sample.fleet "XYZ999" 9 =
      (Sample.fleet, (Message "Driver not found", 404)).
Proof.
  split.
  - apply (proj1 (assign_unknown_car_or_driver Sample.fleet "NOPE" 1)).
    unfold known. simpl. by intros [=]%list_elem_of_singleton.
  - apply (proj2 (assign_unknown_car_or_driver Sample.fleet "XYZ999" 9)).
    + unfold known. simpl. constructor.
    + unfold int64. lia.
    + unfold driver_exists. simpl. by intros [=]%list_elem_of_singleton.
Defined.

(** C8: for a known car and an existing driver, [assign] succeeds, and a
    second [assign] of the same driver succeeds too and leaves the database
    exactly as the first left it; the car's driver is then that driver. *)
Theorem assign_idempotent st plate d :
  known st plate → driver_exists st d →
  ∃ st1,
    AssignDriver.post st plate d = (st1, (Message "Driver assigned", 200))
    ∧ AssignDriver.post st1 plate d = (st1, (Message "Driver assigned", 200))
    ∧ CarModel.driver_id <$>
        CarModel.find_by_attribute (license_plate_is plate) (cars st1)
      = Some (Some d).
Proof.
  intros [car Hcar]%known_find [row Hrow]%driver_exists_find.
  set (car' := CarModel.with_driver_id car (Some d)).
  assert (Hcar' : CarModel.find_by_attribute (license_plate_is plate)
                    (cars (update_car st car')) = Some car').
  { apply (find_car_update st plate car car' Hcar); [done|].
    simpl. by eapply find_car_plate. }
  exists (update_car st car'). unfold AssignDriver.post.
  rewrite Hcar, Hrow, Hcar'. simpl. rewrite Hrow.
  split; [done|]. split; [|done].
  f_equal. fold car'. replace (CarModel.with_driver_id car' (Some d)) with car' by done.
  apply update_car_twice.
Qed.

Lemma assign_idempotent_witness :
  ∃ st1,
    AssignDriver.post Sample.fleet "XYZ999" 1 = (st1, (Message "Driver assigned", 200))
    ∧ AssignDriver.post st1 "XYZ999" 1 = (st1, (Message "Driver assigned", 200))
    ∧ CarModel.driver_id <$>
        CarModel.find_by_attribute (license_plate_is "XYZ999") (cars st1)
      = Some (Some 1).
Proof.
  apply assign_idempotent.
  - unfold known. simpl. constructor.
  - unfold driver_exists. simpl. constructor.
Defined.

(** ** Creating, updating and deleting cars *)

(** A creation answered 201 found no car under the plate and added one
    row, carrying the plate, at the end of the cars table. *)
Lemma car_post_created st plate data st1 b :
  Car.post st plate data = Some (st1, (b, 201)) →
  ¬ known st plate
  ∧ ∃ car, CarModel.license_plate car = plate
           ∧ st1 = mk_db (cars st ++ [car]) (drivers st) (positions st).
Proof.
  unfold Car.post.
  destruct (CarModel.find_by_attribute _ _) as [car|] eqn:Hcar; [done|].
  destruct (Integer (dict_get data "driver_id" PyNone)) as [key|]; simpl; [|done].
  destruct (truthy _ && _); [done|].
  intros [= <- _]. split.
  - by apply find_car_None.
  - by eexists (CarModel.mk _ _ _).
Qed.

(** C9: once [createCar] has created the car of a plate (status 201), a
    second [createCar] of that plate, whatever its body, returns [Car
    already exists] (400) and leaves the database as it was, so no second
    row is added; and if the plates of the cars table were pairwise distinct
    before the first call they still are after it. *)
Theorem create_car_twice st plate data st1 b :
  Car.post st plate data = Some (st1, (b, 201)) →
  (∀ data', Car.post st1 plate data' =
              Some (st1, (Message "Car already exists", 400)))
  ∧ (NoDup (CarModel.license_plate <$> cars st) →
     NoDup (CarModel.license_plate <$> cars st1)).
Proof.
  intros (Hnew & car & Hplate & ->)%car_post_created. split.
  - intros data'. unfold Car.post.
    assert (Hknown : known (mk_db (cars st ++ [car]) (drivers st) (positions st)) plate).
    { unfold known. simpl. rewrite fmap_app. set_solver. }
    apply known_find in Hknown as [car' Hcar']. by rewrite Hcar'.
  - intros Hnodup. simpl. rewrite fmap_app. apply NoDup_app.
    split; [done|]. split; [|apply NoDup_singleton].
    intros p Hp Hin.
    change (CarModel.license_plate <$> [car]) with [CarModel.license_plate car] in Hin.
    apply list_elem_of_singleton in Hin. subst p. rewrite Hplate in Hp. by apply Hnew.
Qed.

Lemma create_car_twice_witness :
  Car.post (mk_db (cars Sample.fleet ++ [CarModel.mk (Some 2) "ABC123" None])
              (drivers Sample.fleet) (positions Sample.fleet))
           "ABC123" Sample.driver_null
    = Some (mk_db (cars Sample.fleet ++ [CarModel.mk (Some 2) "ABC123" None])
              (drivers Sample.fleet) (positions Sample.fleet),
            (Message "Car already exists", 400)).
Proof.
  exact (proj1 (create_car_twice Sample.fleet "ABC123" ∅ _ _ eq_refl)
           Sample.driver_null).
Defined.

(** C10: deleting the car found under a plate returns [Car deleted]; the
    positions table is untouched, so every position recorded for the car is
    still there; the drivers table is untouched; and the cars table keeps,
    unchanged, exactly the rows whose key is not the deleted car's. *)
Theorem delete_car_keeps_positions st plate car :
  CarModel.find_by_attribute (license_plate_is plate) (cars st) = Some car →
  ∃ st',
    Car.delete st plate = (st', (Message "Car deleted", 200))
    ∧ positions st' = positions st
    ∧ (∀ p, p ∈ positions st → PositionModel.car_id p = CarModel.id car →
            p ∈ positions st')
    ∧ drivers st' = drivers st
    ∧ (car ∉ cars st')
    ∧ (∀ c, c ∈ cars st' ↔ c ∈ cars st ∧ CarModel.id c ≠ CarModel.id car).
Proof.
  intros Hcar. exists (delete_car st car). unfold Car.delete. rewrite Hcar.
  split; [done|]. split; [done|]. split; [done|]. split; [done|].
  unfold delete_car. simpl. split.
  - rewrite list_elem_of_filter. tauto.
  - intros c. rewrite list_elem_of_filter. tauto.
Qed.

Lemma delete_car_keeps_positions_witness :
  ∃ st',
    Car.delete Sample.tracked "XYZ999" = (st', (Message "Car deleted", 200))
    ∧ positions st' = positions Sample.tracked.
Proof.
  destruct (delete_car_keeps_positions Sample.tracked "XYZ999" Sample.xyz999 eq_refl)
    as (st' & Hdel & Hpos & _).
  exists st'. by split.
Defined.

(** The driver check of car creation and update, where it holds: a
    non-zero [driver_id], one of the 64-bit integers a key can be, that no
    driver has is refused. *)
Lemma car_post_unknown_driver st plate data d :
  ¬ known st plate →
  data !! "driver_id" = Some (PyInt d) → d ≠ 0 → int64 d → ¬ driver_exists st d →
  Car.post st plate data = Some (st, (Message "Driver not found", 400)).
Proof.
  intros Hnew%find_car_None Hd Hnz _ Hdrv%find_driver_None.
  unfold Car.post, dict_get. rewrite Hnew, Hd. simpl. rewrite Hdrv.
  by destruct d.
Qed.

Lemma car_put_unknown_driver st plate data d :
  known st plate →
  data !! "driver_id" = Some (PyInt d) → d ≠ 0 → int64 d → ¬ driver_exists st d →
  Car.put st plate data = Some (st, (Message "Driver not found", 400)).
Proof.
  intros [car Hcar]%known_find Hd Hnz _ Hdrv%find_driver_None.
  unfold Car.put, dict_get. rewrite Hcar, Hd. simpl. rewrite Hdrv.
  by destruct d.
Qed.

(** X21: a creation under an unused plate whose body has no
    [driver_id], or a null one, is accepted: the car is stored at the end of
    the table under a fresh key, without a driver, and returned with status
    201. *)
Lemma car_post_without_driver st plate data :
  ¬ known st plate →
  data !! "driver_id" = None ∨ data !! "driver_id" = Some PyNone →
  Car.post st plate data =
    Some (mk_db (cars st ++ [CarModel.mk (Some (next_id (CarModel.id <$> cars st)))
                               plate None])
                (drivers st) (positions st),
          (CarJson (CarModel.mk_json (Some (next_id (CarModel.id <$> cars st)))
                      plate None), 201)).
Proof.
  intros Hnew%find_car_None Hd. unfold Car.post, dict_get. rewrite Hnew.
  by destruct Hd as [-> | ->].
Qed.

(** X22: an update of a known car whose body has no [driver_id], or a
    null one, is accepted: the car is returned with status 200 and no
    driver, and has no driver afterwards. *)
Lemma car_put_without_driver st plate car data :
  CarModel.find_by_attribute (license_plate_is plate) (cars st) = Some car →
  data !! "driver_id" = None ∨ data !! "driver_id" = Some PyNone →
  ∃ st', Car.put st plate data =
           Some (st', (CarJson (CarModel.mk_json (CarModel.id car) plate None), 200))
         ∧ CarModel.driver_id <$>
             CarModel.find_by_attribute (license_plate_is plate) (cars st') = Some None.
Proof.
  intros Hcar Hd. pose proof (find_car_plate _ _ _ Hcar) as Hplate.
  exists (update_car st (CarModel.with_driver_id car None)).
  unfold Car.put, dict_get. rewrite Hcar. split.
  - destruct Hd as [-> | ->]; simpl; by rewrite <-Hplate.
  - by erewrite find_car_update.
Qed.

(** C4, where the program departs from it: a [driver_id] of 0 counts as
    false for [if driver_id and ...], so the driver lookup is skipped.  With
    no driver in the table, creation with [{"driver_id": 0}] is answered 201
    and stores a car whose driver is 0, and an update stores 0 in the same
    way; the assignment resource, asked for the same driver on the same car,
    answers [Driver not found]. *)
Theorem car_driver_zero_unchecked :
  ¬ driver_exists Sample.no_driver 0
  ∧ Car.post Sample.no_driver "ABC123" Sample.driver_zero =
      Some (mk_db [Sample.xyz999; CarModel.mk (Some 2) "ABC123" (Some 0)] [] [],
            (CarJson (CarModel.mk_json (Some 2) "ABC123" (Some 0)), 201))
  ∧ Car.put Sample.no_driver "XYZ999" Sample.driver_zero =
      Some (mk_db [CarModel.mk (Some 1) "XYZ999" (Some 0)] [] [],
            (CarJson (CarModel.mk_json (Some 1) "XYZ999" (Some 0)), 200))
  ∧ AssignDriver.post Sample.no_driver "XYZ999" 0 =
      (Sample.no_driver, (Message "Driver not found", 404)).
Proof.
  split; [|by repeat split].
  unfold driver_exists. simpl. apply not_elem_of_nil.
Qed.

(** * Further properties of the resources *)

(** ** Rows and keys *)

Lemma find_car_elem plate (l : list CarModel.t) car :
  CarModel.find_by_attribute (license_plate_is plate) l = Some car → car ∈ l.
Proof.
  intros (l1 & l2 & -> & _)%find_car_spec. apply elem_of_app. right. by left.
Qed.

Lemma find_car_new_row plate (l : list CarModel.t) car :
  plate ∉ CarModel.license_plate <$> l →
  CarModel.license_plate car = plate →
  CarModel.find_by_attribute (license_plate_is plate) (l ++ [car]) = Some car.
Proof.
  intros Hnew%find_car_None Hplate. unfold CarModel.find_by_attribute in *.
  rewrite filter_app. apply head_None in Hnew. rewrite Hnew. simpl.
  rewrite filter_cons_True; [done|]. by apply String.eqb_eq.
Qed.

Lemma next_id_above (ids : list (option Z)) i : Some i ∈ ids → i < next_id ids.
Proof.
  unfold next_id. induction ids as [|j ids IH]; [by intros ?%elem_of_nil|].
  intros [<- | Hin]%elem_of_cons; simpl.
  - lia.
  - specialize (IH Hin). lia.
Qed.

Lemma next_id_fresh (ids : list (option Z)) : Some (next_id ids) ∉ ids.
Proof. intros Hin%next_id_above. lia. Qed.

(** ** More on position ingestion *)

(** What an ingestion that returns can have done to the database. *)
Lemma position_post_db st plate data now nominatim st' r :
  CarPosition.post st plate data now nominatim = Ok (st', r) →
  (st' = st ∧ r.2 ≠ 201)
  ∨ ∃ car lat lon a,
      CarModel.find_by_attribute (license_plate_is plate) (cars st) = Some car
      ∧ r = (Message "Position saved", 201)
      ∧ st' = mk_db (cars st) (drivers st)
                (positions st ++
                   [PositionModel.mk (Some (next_id (PositionModel.id <$> positions st)))
                      (CarModel.id car) lat lon now a]).
Proof.
  unfold CarPosition.post.
  destruct (CarModel.find_by_attribute _ _) as [car|] eqn:Hcar;
    [|intros [= <- <-]; by left].
  destruct (dict_get data "latitude" PyNone) as [| | |lat| | |];
    try (intros [= <- <-]; by left).
  destruct (dict_get data "longitude" PyNone) as [| | |lon| | |];
    try (intros [= <- <-]; by left).
  destruct (PositionModel.resolve_address _ _) as [p| |] eqn:Hp; simpl; [|done..].
  destruct (add_position st p) as [[st1 p']| |] eqn:Hadd; simpl; [|done..].
  intros [= <- <-]. right.
  apply add_position_Ok in Hadd as (-> & Hid & Hcar_id & Hdate).
  apply resolve_address_fields in Hp. rewrite Hp in Hcar_id, Hdate.
  destruct p' as [id' car_id' lat' lon' date' a']. simpl in *. subst.
  by exists car, lat', lon', a'.
Qed.

(** X1: for a plate no car has, position ingestion returns [Car not
    found] (404) and stores nothing, whatever the body holds and whatever
    the geocoder would reply: the plate is checked first. *)
Theorem ingest_unknown_plate st plate data now nominatim :
  ¬ known st plate →
  CarPosition.post st plate data now nominatim =
    Ok (st, (Message "Car not found", 404)).
Proof.
  intros Hnew%find_car_None. unfold CarPosition.post. by rewrite Hnew.
Qed.

Lemma ingest_unknown_plate_witness :
  CarPosition.post Sample.fleet "NOPE" Sample.int_latitude 7 Sample.unreachable =
    Ok (Sample.fleet, (Message "Car not found", 404)).
Proof.
  apply ingest_unknown_plate.
  unfold known. simpl. by intros [=]%list_elem_of_singleton.
Defined.

(** Which documents [resolve_address] gets through. *)
Lemma resolve_address_shape self response :
  ((truthy response = false ∨ ∃ d rest, response = PyList (PyDict d :: rest))
   ∧ ∃ p, PositionModel.resolve_address self (Fetched response) = Ok p)
  ∨ (¬ (truthy response = false ∨ ∃ d rest, response = PyList (PyDict d :: rest))
     ∧ ∃ e, PositionModel.resolve_address self (Fetched response) = Raise e).
Proof.
  unfold PositionModel.resolve_address.
  destruct (truthy response) eqn:Htruthy; [|left; split; [by left|by eexists]].
  assert (Hno : ∀ e : exn,
            (∀ d rest, response ≠ PyList (PyDict d :: rest)) →
            ¬ (true = false ∨ ∃ d rest, response = PyList (PyDict d :: rest)))
    by (intros _ Hne [? | (d & rest & ?)]; [done|by eapply Hne]).
  destruct response as [| | | |s|[|first rest]|d]; simpl in *; try done;
    try (right; split; [by apply (Hno TypeError)|by eexists]).
  - destruct s; [done|]. right. split; [by apply (Hno TypeError)|by eexists].
  - destruct first; simpl;
      try (right; split; [apply (Hno TypeError); by intros ?? [=]|by eexists]).
    left. split; [right; by eexists _, _|by eexists].
Qed.

(** X2: with a known plate and float coordinates, a geocoder document
    that Python takes for true and that is not a list whose first element is
    an object (an error object, a string, a number, a list of non-objects)
    makes ingestion raise, so ingestion returns only on a document taken for
    false or a list headed by an object; and on such a document it does
    return, with status 201, when no coordinate is NaN and the first
    [display_name] is text, null or missing. *)
Theorem ingest_reply_shape st plate car data now nominatim lat lon response :
  CarModel.find_by_attribute (license_plate_is plate) (cars st) = Some car →
  data !! "latitude" = Some (PyFloat lat) →
  data !! "longitude" = Some (PyFloat lon) →
  nominatim lat lon = Fetched response →
  (¬ (truthy response = false ∨ ∃ d rest, response = PyList (PyDict d :: rest)) →
     ∃ e, CarPosition.post st plate data now nominatim = Raise e)
  ∧ ((∃ st' r, CarPosition.post st plate data now nominatim = Ok (st', r)) →
     truthy response = false ∨ ∃ d rest, response = PyList (PyDict d :: rest))
  ∧ (truthy response = false
     ∨ (∃ d rest, response = PyList (PyDict d :: rest)
                  ∧ text_or_null (dict_get d "display_name" (PyStr "")) = true) →
     PrimFloat.is_nan lat = false → PrimFloat.is_nan lon = false →
     ∃ st', CarPosition.post st plate data now nominatim =
              Ok (st', (Message "Position saved", 201))).
Proof.
  intros Hcar Hlat Hlon Hreply.
  rewrite (position_post_floats _ _ _ _ _ _ _ _ Hcar Hlat Hlon), Hreply.
  split; [|split].
  - intros Hnot.
    destruct (resolve_address_shape
                (PositionModel.mk None (CarModel.id car) lat lon now PyNone) response)
      as [[Hyes _] | [_ [e ->]]]; [done|by exists e].
  - intros (st' & r & Hpost).
    destruct (resolve_address_shape
                (PositionModel.mk None (CarModel.id car) lat lon now PyNone) response)
      as [[Hyes _] | [_ [e He]]]; [done|]. by rewrite He in Hpost.
  - intros [Hfalse | (d & rest & -> & Htext)] Hnlat Hnlon.
    + rewrite resolve_address_empty by done. simpl.
      rewrite add_position_stores by done. by eexists.
    + unfold PositionModel.resolve_address. simpl.
      rewrite add_position_stores by done. by eexists.
Qed.

Lemma ingest_reply_shape_witness :
  ∃ e, CarPosition.post Sample.fleet "XYZ999" Sample.new_york 7 Scenario.error_document
       = Raise e.
Proof.
  apply (proj1 (ingest_reply_shape Sample.fleet "XYZ999" Sample.xyz999
                  Sample.new_york 7 Scenario.error_document 40.5%float (-74.25)%float
                  _ eq_refl eq_refl eq_refl eq_refl)).
  intros [Hfalse | (d & rest & Hlist)].
  - vm_compute in Hfalse. discriminate Hfalse.
  - discriminate Hlist.
Defined.

(** X3: when the geocoder replies with a list of results, no coordinate
    is NaN and the [display_name] of the first result is text or null, the
    position is stored with that [display_name] as its address; the other
    results are not looked at. *)
Theorem ingest_takes_first_display_name
    st plate car data now nominatim lat lon (first : gmap string pyval) rest a :
  CarModel.find_by_attribute (license_plate_is plate) (cars st) = Some car →
  data !! "latitude" = Some (PyFloat lat) →
  data !! "longitude" = Some (PyFloat lon) →
  PrimFloat.is_nan lat = false →
  PrimFloat.is_nan lon = false →
  nominatim lat lon = Fetched (PyList (PyDict first :: rest)) →
  first !! "display_name" = Some a →
  text_or_null a = true →
  CarPosition.post st plate data now nominatim =
    Ok (mk_db (cars st) (drivers st)
          (positions st ++
             [PositionModel.mk (Some (next_id (PositionModel.id <$> positions st)))
                (CarModel.id car) (real_value lat) (real_value lon) now a]),
        (Message "Position saved", 201)).
Proof.
  intros Hcar Hlat Hlon Hnlat Hnlon Hreply Hname Htext.
  rewrite (position_post_floats _ _ _ _ _ _ _ _ Hcar Hlat Hlon), Hreply.
  unfold PositionModel.resolve_address. simpl. unfold dict_get. rewrite Hname. simpl.
  by rewrite add_position_stores.
Qed.

Lemma ingest_takes_first_display_name_witness :
  CarPosition.post Sample.fleet "XYZ999" Sample.new_york 7 Scenario.two_results =
    Ok (mk_db [Sample.xyz999] [Sample.alice]
          [PositionModel.mk (Some 1) (Some 1) 40.5%float (-74.25)%float 7
             (PyStr "Main St")],
        (Message "Position saved", 201)).
Proof.
  exact (ingest_takes_first_display_name Sample.fleet "XYZ999" Sample.xyz999
           Sample.new_york 7 Scenario.two_results 40.5%float (-74.25)%float
           _ _ (PyStr "Main St") eq_refl eq_refl eq_refl eq_refl eq_refl eq_refl
           eq_refl eq_refl).
Defined.

Lemma list_positions_after_ingest_witness :
  ∃ p, PositionModel.date p = 9
       ∧ CarPositions.get
           (mk_db [Sample.xyz999] [Sample.alice]
              [PositionModel.mk (Some 1) (Some 1) 40.5%float (-74.25)%float 7 (PyStr "");
               PositionModel.mk (Some 2) (Some 1) 40.5%float (-74.25)%float 9
                 (PyStr "Main St")])
           "XYZ999"
         = (PositionsJson
              ([PositionModel.mk_json (Some 1) (Some 1) 40.5%float (-74.25)%float 7
                  (PyStr "")] ++ [PositionModel.json p]), 200).
Proof.
  exact (list_positions_after_ingest Sample.tracked "XYZ999" Sample.new_york 9
           Sample.main_street _ _ _ eq_refl eq_refl).
Defined.

(** X5: ingesting a position for one car leaves the list of every car
    with another key as it was. *)
Theorem ingest_keeps_other_lists st plate data now nominatim st' r car other_plate other :
  CarPosition.post st plate data now nominatim = Ok (st', r) →
  CarModel.find_by_attribute (license_plate_is plate) (cars st) = Some car →
  CarModel.find_by_attribute (license_plate_is other_plate) (cars st) = Some other →
  CarModel.id other ≠ CarModel.id car →
  CarPositions.get st' other_plate = CarPositions.get st other_plate.
Proof.
  intros [[-> _] | (car' & lat & lon & a & Hcar' & _ & ->)]%position_post_db
    Hcar Hother Hne; [done|].
  unfold CarPositions.get. simpl. rewrite Hother.
  rewrite filter_app, filter_cons_False, filter_nil, app_nil_r; [done|].
  simpl. congruence.
Qed.

Lemma ingest_keeps_other_lists_witness :
  CarPositions.get
    (mk_db (cars Scenario.two_cars) (drivers Scenario.two_cars)
       (positions Scenario.two_cars ++
          [PositionModel.mk (Some 3) (Some 1) 40.5%float (-74.25)%float 9
             (PyStr "Main St")]))
    "ABC123"
  = CarPositions.get Scenario.two_cars "ABC123".
Proof.
  apply (ingest_keeps_other_lists Scenario.two_cars "XYZ999" Sample.new_york 9
           Sample.main_street _ (Message "Position saved", 201)
           Sample.xyz999 "ABC123" Scenario.abc123 eq_refl eq_refl eq_refl).
  simpl. discriminate.
Defined.

Lemma ingest_reads_coordinates_only_witness :
  CarPosition.post Sample.fleet "XYZ999" Scenario.backdated 7 Sample.main_street =
  CarPosition.post Sample.fleet "XYZ999" Sample.new_york 7 Sample.main_street.
Proof.
  apply ingest_reads_coordinates_only; reflexivity.
Defined.

(** ** More on the car resource *)

(** What each writing method can have done to the database. *)
Lemma car_post_db st plate data st' r :
  Car.post st plate data = Some (st', r) →
  (st' = st ∧ r.2 = 400)
  ∨ (¬ known st plate
     ∧ ∃ key,
         st' = mk_db (cars st ++
                        [CarModel.mk (Some (next_id (CarModel.id <$> cars st))) plate key])
                 (drivers st) (positions st)
         ∧ r = (CarJson (CarModel.mk_json (Some (next_id (CarModel.id <$> cars st)))
                           plate key), 201)).
Proof.
  unfold Car.post.
  destruct (CarModel.find_by_attribute _ _) as [car|] eqn:Hcar;
    [intros [= <- <-]; by left|].
  destruct (Integer (dict_get data "driver_id" PyNone)) as [key|]; simpl; [|done].
  destruct (truthy _ && _); [intros [= <- <-]; by left|].
  intros [= <- <-]. right. split; [by apply find_car_None|]. by exists key.
Qed.

Lemma car_put_db st plate data st' r :
  Car.put st plate data = Some (st', r) →
  (st' = st ∧ r.2 ≠ 200)
  ∨ ∃ car key,
      CarModel.find_by_attribute (license_plate_is plate) (cars st) = Some car
      ∧ st' = update_car st (CarModel.with_driver_id car key)
      ∧ r = (CarJson (CarModel.mk_json (CarModel.id car) (CarModel.license_plate car) key),
             200).
Proof.
  unfold Car.put.
  destruct (CarModel.find_by_attribute _ _) as [car|] eqn:Hcar;
    [|intros [= <- <-]; by left].
  destruct (Integer (dict_get data "driver_id" PyNone)) as [key|]; simpl; [|done].
  destruct (truthy _ && _); [intros [= <- <-]; by left|].
  intros [= <- <-]. right. by exists car, key.
Qed.

Lemma assign_db st plate d st' r :
  AssignDriver.post st plate d = (st', r) →
  (st' = st ∧ r.2 = 404)
  ∨ ∃ car,
      CarModel.find_by_attribute (license_plate_is plate) (cars st) = Some car
      ∧ driver_exists st d
      ∧ st' = update_car st (CarModel.with_driver_id car (Some d))
      ∧ r = (Message "Driver assigned", 200).
Proof.
  unfold AssignDriver.post.
  destruct (CarModel.find_by_attribute _ _) as [car|] eqn:Hcar;
    [|intros [= <- <-]; by left].
  destruct (DriverModel.find_by_attribute _ _) as [row|] eqn:Hrow;
    [|intros [= <- <-]; by left].
  intros [= <- <-]. right. exists car. split; [done|].
  split; [|done]. apply driver_exists_find. by exists row.
Qed.

Lemma unassign_db st plate d st' r :
  AssignDriver.delete st plate d = (st', r) →
  (st' = st ∧ r.2 = 404)
  ∨ ∃ car,
      CarModel.find_by_attribute (license_plate_is plate) (cars st) = Some car
      ∧ CarModel.driver_id car = Some d
      ∧ st' = update_car st (CarModel.with_driver_id car None)
      ∧ r = (Message "Driver assignment deleted", 200).
Proof.
  unfold AssignDriver.delete.
  destruct (CarModel.find_by_attribute _ _) as [car|] eqn:Hcar;
    [|intros [= <- <-]; by left].
  case_bool_decide as Hne; [intros [= <- <-]; by left|].
  intros [= <- <-]. right. exists car. split; [done|]. split; [|done].
  by destruct (decide (CarModel.driver_id car = Some d)).
Qed.

Lemma car_delete_db st plate st' r :
  Car.delete st plate = (st', r) →
  (st' = st ∧ r.2 = 404)
  ∨ ∃ car,
      CarModel.find_by_attribute (license_plate_is plate) (cars st) = Some car
      ∧ st' = delete_car st car
      ∧ r = (Message "Car deleted", 200).
Proof.
  unfold Car.delete.
  destruct (CarModel.find_by_attribute _ _) as [car|] eqn:Hcar;
    intros [= <- <-]; [right; by exists car|by left].
Qed.

(** Rows of a table with pairwise distinct values in a column are told
    apart by that column. *)
Lemma NoDup_fmap_eq {A B} (f : A → B) (l : list A) x y :
  NoDup (f <$> l) → x ∈ l → y ∈ l → f x = f y → x = y.
Proof.
  induction l as [|z l IH]; [by intros _ ?%elem_of_nil|].
  rewrite fmap_cons, NoDup_cons.
  intros [Hz Hl] [-> | Hx]%elem_of_cons [-> | Hy]%elem_of_cons Heq; [done| | |by apply IH].
  - destruct Hz. rewrite Heq. by apply list_elem_of_fmap_2.
  - destruct Hz. rewrite <-Heq. by apply list_elem_of_fmap_2.
Qed.

(** X7: a car that was just created is found again: after a creation
    answered 201, [get] for the plate returns the very object the creation
    returned, now with status 200; the object carries the plate, and its key
    is one no row of the table had. *)
Theorem car_get_after_post st plate data st1 b :
  Car.post st plate data = Some (st1, (b, 201)) →
  Car.get st1 plate = (b, 200)
  ∧ ∃ j, b = CarJson j
         ∧ CarModel.json_license_plate j = plate
         ∧ CarModel.json_id j ∉ CarModel.id <$> cars st.
Proof.
  intros [[_ [=]] | (Hnew & key & -> & [= ->])]%car_post_db. split.
  - unfold Car.get. simpl. by rewrite (find_car_new_row plate (cars st) _ Hnew).
  - eexists. split; [done|]. split; [done|]. simpl. apply next_id_fresh.
Qed.

Lemma car_get_after_post_witness :
  Car.get (mk_db [Sample.xyz999; CarModel.mk (Some 2) "ABC123" (Some 1)]
             [Sample.alice] [])
          "ABC123"
    = (CarJson (CarModel.mk_json (Some 2) "ABC123" (Some 1)), 200).
Proof.
  exact (proj1 (car_get_after_post Sample.fleet "ABC123" Scenario.driver_one
                  _ _ eq_refl)).
Defined.

(** X8: the list of cars has one object per row, in table order; a
    creation answered 201 puts the object it returns at the end of the list
    and changes nothing before it, and a creation that is refused leaves the
    list as it was. *)
Theorem car_list_after_post st plate data st1 b status :
  Car.post st plate data = Some (st1, (b, status)) →
  (status = 201 →
     ∃ j, b = CarJson j
          ∧ CarList.get st1 = (CarsJson ((CarModel.json <$> cars st) ++ [j]), 200))
  ∧ (status ≠ 201 → CarList.get st1 = CarList.get st).
Proof.
  intros [[-> Hstatus] | (Hnew & key & -> & [= -> ->])]%car_post_db.
  - simpl in Hstatus. subst status. by split.
  - split; [|done]. intros _. eexists. split; [done|].
    unfold CarList.get. simpl. by rewrite fmap_app.
Qed.

Lemma car_list_after_post_witness :
  ∃ j, CarList.get (mk_db [Sample.xyz999; CarModel.mk (Some 2) "ABC123" None]
                      [Sample.alice] [])
       = (CarsJson ((CarModel.json <$> cars Sample.fleet) ++ [j]), 200).
Proof.
  destruct (proj1 (car_list_after_post Sample.fleet "ABC123" Sample.driver_null
                     _ _ _ eq_refl) eq_refl) as (j & _ & Hlist).
  by exists j.
Defined.

(** X9: [get] answers [Car not found] (404) exactly for the plates no
    row carries; for any other plate it answers 200 with the object of a row
    of the table that carries the plate. *)
Theorem car_get_found_iff_known st plate :
  (Car.get st plate = (Message "Car not found", 404) ↔ ¬ known st plate)
  ∧ (known st plate ↔
     ∃ car, car ∈ cars st
            ∧ CarModel.license_plate car = plate
            ∧ Car.get st plate = (CarJson (CarModel.json car), 200)).
Proof.
  unfold Car.get. split.
  - unfold known. rewrite <-find_car_None.
    destruct (CarModel.find_by_attribute _ _); split; intros; done.
  - split.
    + intros [car Hcar]%known_find. exists car. rewrite Hcar.
      split; [by eapply find_car_elem|]. split; [by eapply find_car_plate|done].
    + intros (car & Hin & <- & _). unfold known. by apply list_elem_of_fmap_2.
Qed.

(** X10: when the plates of the table are pairwise distinct, a deleted
    car is gone: after the deletion the plate is unknown, [get] answers
    [Car not found], and a second deletion answers [Car not found] and
    changes nothing. *)
Theorem car_delete_then_gone st plate st' :
  NoDup (CarModel.license_plate <$> cars st) →
  Car.delete st plate = (st', (Message "Car deleted", 200)) →
  ¬ known st' plate
  ∧ Car.get st' plate = (Message "Car not found", 404)
  ∧ Car.delete st' plate = (st', (Message "Car not found", 404)).
Proof.
  intros Hplates [[_ [=]] | (car & Hcar & -> & _)]%car_delete_db.
  assert (Hgone : ¬ known (delete_car st car) plate).
  { unfold known, delete_car. simpl.
    intros (row & Hplate & [Hid Hrow]%list_elem_of_filter)%list_elem_of_fmap.
    apply Hid. f_equal.
    apply (NoDup_fmap_eq CarModel.license_plate (cars st)); [done|done| |].
    - by eapply find_car_elem.
    - rewrite <-Hplate. symmetry. by eapply find_car_plate. }
  split; [done|]. apply find_car_None in Hgone.
  unfold Car.get, Car.delete. by rewrite Hgone.
Qed.

Lemma car_delete_then_gone_witness :
  Car.get (mk_db [Scenario.abc123] (drivers Scenario.two_cars)
             (positions Scenario.two_cars)) "XYZ999"
    = (Message "Car not found", 404).
Proof.
  refine (proj1 (proj2 (car_delete_then_gone Scenario.two_cars "XYZ999" _ _ eq_refl))).
  simpl. apply NoDup_cons. split; [|apply NoDup_singleton].
  by intros [=]%list_elem_of_singleton.
Defined.

(** ** More on driver assignment *)

Lemma update_car_ids st car :
  CarModel.id <$> cars (update_car st car) = CarModel.id <$> cars st.
Proof.
  unfold update_car. simpl. rewrite <-list_fmap_compose.
  apply list_fmap_ext. intros _ row _. simpl. by case_decide.
Qed.

(** Under distinct keys the commit of a changed car touches one row. *)
Lemma update_car_rows st car car' :
  NoDup (CarModel.id <$> cars st) →
  car ∈ cars st →
  CarModel.id car' = CarModel.id car →
  Forall2 (fun row row' => (row = car ∧ row' = car') ∨ (row ≠ car ∧ row' = row))
          (cars st) (cars (update_car st car')).
Proof.
  intros Hids Hcar Hid. unfold update_car. simpl.
  apply Forall2_fmap_r, Forall_Forall2_diag, Forall_forall. intros row Hrow.
  unfold compose. case_decide as Hsame.
  - left. split; [|done].
    apply (NoDup_fmap_eq CarModel.id (cars st)); [done..|congruence].
  - right. split; [|done]. intros ->. by apply Hsame.
Qed.

Lemma update_car_plates st car car' :
  NoDup (CarModel.id <$> cars st) →
  car ∈ cars st →
  CarModel.id car' = CarModel.id car →
  CarModel.license_plate car' = CarModel.license_plate car →
  CarModel.license_plate <$> cars (update_car st car') =
  CarModel.license_plate <$> cars st.
Proof.
  intros Hids Hcar Hid Hplate.
  pose proof (update_car_rows st car car' Hids Hcar Hid) as Hrows.
  clear Hids Hcar. induction Hrows as [|row row' l l' Hrow _ IH]; [done|].
  rewrite !fmap_cons. f_equal; [|exact IH].
  destruct Hrow as [[-> ->] | [_ ->]]; done.
Qed.

Lemma update_car_restore st car car' :
  NoDup (CarModel.id <$> cars st) →
  car ∈ cars st →
  CarModel.id car' = CarModel.id car →
  update_car (update_car st car') car = st.
Proof.
  intros Hids Hcar Hid. destruct st as [cs ds ps]. unfold update_car. simpl in *.
  f_equal. rewrite <-list_fmap_compose. rewrite <-(list_fmap_id cs) at 2.
  apply list_fmap_ext. intros i row Hrow%list_elem_of_lookup_2. simpl.
  destruct (decide (CarModel.id row = CarModel.id car')) as [Hsame|Hother].
  - rewrite decide_True by done.
    apply (NoDup_fmap_eq CarModel.id cs); [done..|congruence].
  - rewrite decide_False by congruence. done.
Qed.

(** X11: for a non-zero driver key, updating a car with that
    [driver_id] and assigning the driver through the assignment resource
    leave the same database, whether the car and the driver exist or not. *)
Theorem car_put_agrees_with_assign st plate data d :
  data !! "driver_id" = Some (PyInt d) → d ≠ 0 →
  ∃ r, Car.put st plate data = Some ((AssignDriver.post st plate d).1, r).
Proof.
  intros Hd Hnz. unfold Car.put, AssignDriver.post, dict_get. rewrite Hd. simpl.
  destruct (CarModel.find_by_attribute _ _) as [car|]; [|by eexists].
  assert ((d =? 0) = false) as -> by lia. simpl.
  destruct (DriverModel.find_by_attribute _ _) as [row|]; simpl; by eexists.
Qed.

Lemma car_put_agrees_with_assign_witness :
  ∃ r, Car.put Sample.fleet "XYZ999" Scenario.driver_one =
         Some ((AssignDriver.post Sample.fleet "XYZ999" 1).1, r).
Proof.
  apply car_put_agrees_with_assign; [reflexivity|lia].
Defined.

(** X12: updating a car with a null or absent [driver_id] leaves the
    database that unassigning the car's current driver leaves. *)
Theorem car_put_null_agrees_with_unassign st plate car data d :
  CarModel.find_by_attribute (license_plate_is plate) (cars st) = Some car →
  CarModel.driver_id car = Some d →
  data !! "driver_id" = None ∨ data !! "driver_id" = Some PyNone →
  ∃ r, Car.put st plate data = Some ((AssignDriver.delete st plate d).1, r).
Proof.
  intros Hcar Hdriver Hd. unfold Car.put, AssignDriver.delete, dict_get.
  rewrite Hcar, Hdriver, bool_decide_eq_false_2 by (intros Hne; by apply Hne).
  destruct Hd as [-> | ->]; simpl; by eexists.
Qed.

Lemma car_put_null_agrees_with_unassign_witness :
  ∃ r, Car.put Sample.assigned "XYZ999" Sample.driver_null =
         Some ((AssignDriver.delete Sample.assigned "XYZ999" 1).1, r).
Proof.
  apply (car_put_null_agrees_with_unassign Sample.assigned "XYZ999"
           (CarModel.mk (Some 1) "XYZ999" (Some 1)) Sample.driver_null 1
           eq_refl eq_refl).
  right. reflexivity.
Defined.

(** X13: when the car keys are pairwise distinct, assigning an existing
    driver to a car that has none and then unassigning that driver both
    succeed and give back the database one started from. *)
Theorem assign_then_unassign_restores st plate car d :
  NoDup (CarModel.id <$> cars st) →
  CarModel.find_by_attribute (license_plate_is plate) (cars st) = Some car →
  CarModel.driver_id car = None →
  driver_exists st d →
  ∃ st1,
    AssignDriver.post st plate d = (st1, (Message "Driver assigned", 200))
    ∧ AssignDriver.delete st1 plate d = (st, (Message "Driver assignment deleted", 200)).
Proof.
  intros Hids Hcar Hnone [row Hrow]%driver_exists_find.
  set (car' := CarModel.with_driver_id car (Some d)).
  exists (update_car st car'). unfold AssignDriver.post, AssignDriver.delete.
  rewrite Hcar, Hrow. split; [done|].
  rewrite (find_car_update st plate car car' Hcar eq_refl (find_car_plate _ _ _ Hcar)).
  rewrite bool_decide_eq_false_2 by (intros Hne; by apply Hne).
  f_equal. replace (CarModel.with_driver_id car' None) with car.
  - apply update_car_restore; [done| |done]. by eapply find_car_elem.
  - destruct car. simpl in *. by subst.
Qed.

Lemma assign_then_unassign_restores_witness :
  ∃ st1,
    AssignDriver.post Sample.fleet "XYZ999" 1 = (st1, (Message "Driver assigned", 200))
    ∧ AssignDriver.delete st1 "XYZ999" 1 =
        (Sample.fleet, (Message "Driver assignment deleted", 200)).
Proof.
  apply (assign_then_unassign_restores Sample.fleet "XYZ999" Sample.xyz999 1).
  - simpl. apply NoDup_singleton.
  - reflexivity.
  - reflexivity.
  - unfold driver_exists. simpl. constructor.
Defined.

(** ** Sequences of requests *)

(** The five things a served request can have committed: nothing, a new
    car under an unused plate, a new driver reference for a car that was
    found, the deletion of a car that was found, or a new position. *)
Lemma committed_cases st req st' :
  committed st req = Some st' →
  st' = st
  ∨ (∃ plate key,
       ¬ known st plate
       ∧ st' = mk_db (cars st ++
                        [CarModel.mk (Some (next_id (CarModel.id <$> cars st))) plate key])
                 (drivers st) (positions st))
  ∨ (∃ plate car key,
       CarModel.find_by_attribute (license_plate_is plate) (cars st) = Some car
       ∧ st' = update_car st (CarModel.with_driver_id car key))
  ∨ (∃ plate car,
       CarModel.find_by_attribute (license_plate_is plate) (cars st) = Some car
       ∧ st' = delete_car st car)
  ∨ (∃ car_id lat lon now a,
       st' = mk_db (cars st) (drivers st)
               (positions st ++
                  [PositionModel.mk (Some (next_id (PositionModel.id <$> positions st)))
                     car_id lat lon now a])).
Proof.
  unfold committed. destruct req as
    [|plate|plate data|plate data|plate|plate data now nominatim|plate|plate d|plate d];
    simpl.
  - intros [= <-]. by left.
  - intros [= <-]. by left.
  - destruct (Car.post st plate data) as [[st1 r]|] eqn:Hpost; simpl; [|done].
    intros [= <-].
    apply car_post_db in Hpost as [[-> _] | (Hnew & key & -> & _)]; [by left|].
    right. left. by exists plate, key.
  - destruct (Car.put st plate data) as [[st1 r]|] eqn:Hput; simpl; [|done].
    intros [= <-].
    apply car_put_db in Hput as [[-> _] | (car & key & Hcar & -> & _)]; [by left|].
    right. right. left. by exists plate, car, key.
  - destruct (Car.delete st plate) as [st1 r] eqn:Hdel. intros [= <-].
    apply car_delete_db in Hdel as [[-> _] | (car & Hcar & -> & _)]; [by left|].
    right. right. right. left. by exists plate, car.
  - destruct (CarPosition.post st plate data now nominatim) as [[st1 r]|e|] eqn:Hpost;
      [intros [= <-]|intros [= <-]; by left|done].
    apply position_post_db in Hpost
      as [[-> _] | (car & lat & lon & a & _ & _ & ->)]; [by left|].
    do 4 right. by exists (CarModel.id car), lat, lon, now, a.
  - intros [= <-]. by left.
  - destruct (AssignDriver.post st plate d) as [st1 r] eqn:Hpost. intros [= <-].
    apply assign_db in Hpost as [[-> _] | (car & Hcar & _ & -> & _)]; [by left|].
    right. right. left. by exists plate, car, (Some d).
  - destruct (AssignDriver.delete st plate d) as [st1 r] eqn:Hdel. intros [= <-].
    apply unassign_db in Hdel as [[-> _] | (car & Hcar & _ & -> & _)]; [by left|].
    right. right. left. by exists plate, car, None.
Qed.

Lemma NoDup_fmap_filter {A B} (f : A → B) (P : A → Prop) `{!∀ x, Decision (P x)}
    (l : list A) :
  NoDup (f <$> l) → NoDup (f <$> filter P l).
Proof.
  induction l as [|x l IH]; [done|].
  rewrite fmap_cons, NoDup_cons. intros [Hx Hl].
  rewrite filter_cons. case_decide; [|by apply IH].
  rewrite fmap_cons, NoDup_cons. split; [|by apply IH].
  intros (y & Hy & [_ Hin]%list_elem_of_filter)%list_elem_of_fmap.
  apply Hx. rewrite Hy. by apply list_elem_of_fmap_2.
Qed.

Lemma NoDup_snoc_fresh {A} (l : list A) x : NoDup l → x ∉ l → NoDup (l ++ [x]).
Proof.
  intros Hl Hx. apply NoDup_app. split; [done|]. split; [|apply NoDup_singleton].
  intros y Hy ->%list_elem_of_singleton. by apply Hx.
Qed.

Lemma committed_consistent st req st' :
  consistent st → committed st req = Some st' → consistent st'.
Proof.
  intros (Hids & Hplates & Hpos)
    [-> | [(plate & key & Hnew & ->) | [(plate & car & key & Hcar & ->)
         | [(plate & car & Hcar & ->) | (cid & lat & lon & now & a & ->)]]]]%committed_cases.
  - done.
  - unfold consistent. simpl. rewrite !fmap_app. simpl.
    split; [|split; [|done]].
    + apply NoDup_snoc_fresh; [done|]. apply next_id_fresh.
    + by apply NoDup_snoc_fresh.
  - unfold consistent. rewrite update_car_ids.
    rewrite (update_car_plates st car); [done..| |done|done].
    by eapply find_car_elem.
  - unfold consistent, delete_car. simpl.
    split; [|split; [|done]]; by apply NoDup_fmap_filter.
  - unfold consistent. simpl. rewrite fmap_app. simpl.
    split; [done|]. split; [done|].
    apply NoDup_snoc_fresh; [done|]. apply next_id_fresh.
Qed.

Lemma driver_request_db st req plate st' :
  sets_driver_of req = Some plate →
  committed st req = Some st' →
  st' = st
  ∨ ∃ car key,
      CarModel.find_by_attribute (license_plate_is plate) (cars st) = Some car
      ∧ st' = update_car st (CarModel.with_driver_id car key).
Proof.
  unfold committed. destruct req as
    [|p|p data|p data|p|p data now nominatim|p|p d|p d]; simpl; try done;
    intros [= ->].
  - destruct (Car.put st plate data) as [[st1 r]|] eqn:Hput; simpl; [|done].
    intros [= <-].
    apply car_put_db in Hput as [[-> _] | (car & key & Hcar & -> & _)]; [by left|].
    right. by exists car, key.
  - destruct (AssignDriver.post st plate d) as [st1 r] eqn:Hpost. intros [= <-].
    apply assign_db in Hpost as [[-> _] | (car & Hcar & _ & -> & _)]; [by left|].
    right. by exists car, (Some d).
  - destruct (AssignDriver.delete st plate d) as [st1 r] eqn:Hdel. intros [= <-].
    apply unassign_db in Hdel as [[-> _] | (car & Hcar & _ & -> & _)]; [by left|].
    right. by exists car, None.
Qed.

(** X14: under distinct car keys, a request that sets a car's driver
    (an update of the car, an assignment, an unassignment) keeps every row
    of the cars table in place with its key and plate, leaves the rows of
    all other plates exactly as they were, and touches neither positions
    nor drivers. *)
Theorem driver_request_touches_one_car st req plate st' :
  NoDup (CarModel.id <$> cars st) →
  sets_driver_of req = Some plate →
  committed st req = Some st' →
  Forall2 (fun row row' =>
             CarModel.id row' = CarModel.id row
             ∧ CarModel.license_plate row' = CarModel.license_plate row
             ∧ (CarModel.license_plate row ≠ plate → row' = row))
          (cars st) (cars st')
  ∧ drivers st' = drivers st
  ∧ positions st' = positions st.
Proof.
  intros Hids Hreq Hcommitted.
  destruct (driver_request_db _ _ _ _ Hreq Hcommitted) as [-> | (car & key & Hcar & ->)].
  - split; [|done]. by apply Forall_Forall2_diag, Forall_forall.
  - split; [|done].
    eapply Forall2_impl;
      [apply (update_car_rows st car (CarModel.with_driver_id car key) Hids);
       [by eapply find_car_elem|done]|].
    intros row row' [[-> ->] | [_ ->]]; [|done].
    split; [done|]. split; [done|]. intros Hne. destruct Hne.
    by eapply find_car_plate.
Qed.

Lemma driver_request_touches_one_car_witness :
  Forall2 (fun row row' =>
             CarModel.id row' = CarModel.id row
             ∧ CarModel.license_plate row' = CarModel.license_plate row
             ∧ (CarModel.license_plate row ≠ "XYZ999" → row' = row))
          (cars Scenario.two_cars)
          [CarModel.mk (Some 1) "XYZ999" (Some 1); Scenario.abc123]
  ∧ drivers Scenario.two_cars = drivers Scenario.two_cars
  ∧ positions Scenario.two_cars = positions Scenario.two_cars.
Proof.
  refine (driver_request_touches_one_car Scenario.two_cars
            (PostDriver "XYZ999" 1) "XYZ999"
            (mk_db [CarModel.mk (Some 1) "XYZ999" (Some 1); Scenario.abc123]
               (drivers Scenario.two_cars) (positions Scenario.two_cars))
            _ eq_refl eq_refl).
  simpl. apply NoDup_cons. split; [|apply NoDup_singleton].
  by intros [=]%list_elem_of_singleton.
Defined.

(** X15: every request keeps what the table declarations ask for: if
    car keys, plates and position keys are pairwise distinct before a
    sequence of requests, they are after it. *)
Theorem run_keeps_consistent st reqs st' :
  consistent st → run st reqs = Some st' → consistent st'.
Proof.
  revert st. induction reqs as [|req reqs IH]; intros st Hst; simpl.
  - by intros [= <-].
  - destruct (committed st req) as [st1|] eqn:Hreq; simpl; [|done].
    apply IH. by eapply committed_consistent.
Qed.

Lemma run_keeps_consistent_witness :
  ∃ st', run Sample.fleet Scenario.session = Some st' ∧ consistent st'.
Proof.
  eexists. split; [reflexivity|].
  apply (run_keeps_consistent Sample.fleet Scenario.session); [|reflexivity].
  repeat split; simpl; [apply NoDup_singleton|apply NoDup_singleton|apply NoDup_nil_2].
Defined.

(** X16: no request writes to the drivers table: after any sequence of
    requests it holds the rows it held before. *)
Theorem run_never_changes_drivers st reqs st' :
  run st reqs = Some st' → drivers st' = drivers st.
Proof.
  revert st. induction reqs as [|req reqs IH]; intros st; simpl.
  - by intros [= <-].
  - destruct (committed st req) as [st1|] eqn:Hreq; simpl; [|done].
    intros ->%IH.
    apply committed_cases in Hreq
      as [-> | [(plate & key & _ & ->) | [(plate & car & key & _ & ->)
         | [(plate & car & _ & ->) | (cid & lat & lon & now & a & ->)]]]]; done.
Qed.

Lemma run_never_changes_drivers_witness :
  ∃ st', run Sample.fleet Scenario.session = Some st'
         ∧ drivers st' = [Sample.alice].
Proof.
  eexists. split; [reflexivity|].
  exact (run_never_changes_drivers Sample.fleet Scenario.session _ eq_refl).
Defined.

(** X17: stored positions are never altered or removed: after any
    sequence of requests the positions table starts with the rows it held
    before, in the same order. *)
Theorem run_positions_append_only st reqs st' :
  run st reqs = Some st' → positions st `prefix_of` positions st'.
Proof.
  revert st. induction reqs as [|req reqs IH]; intros st; simpl.
  - intros [= <-]. exists []. by rewrite app_nil_r.
  - destruct (committed st req) as [st1|] eqn:Hreq; simpl; [|done].
    intros [k Hk]%IH. rewrite Hk.
    apply committed_cases in Hreq
      as [-> | [(plate & key & _ & ->) | [(plate & car & key & _ & ->)
         | [(plate & car & _ & ->) | (cid & lat & lon & now & a & ->)]]]];
      simpl; try by exists k.
    rewrite <-app_assoc. by eexists.
Qed.

Lemma run_positions_append_only_witness :
  ∃ st', run Sample.tracked Scenario.session = Some st'
         ∧ positions Sample.tracked `prefix_of` positions st'.
Proof.
  eexists. split; [reflexivity|].
  exact (run_positions_append_only Sample.tracked Scenario.session _ eq_refl).
Defined.

(** ** The driver check of creation and update, where it holds *)

(** X18: creating a car under an unused plate with a non-zero integer
    [driver_id], one of the 64-bit integers a key can be, stores the car
    with that driver, answering 201 with the new car, when the driver
    exists, and answers [Driver not found] (400) without storing anything
    when it does not. *)
Theorem car_post_driver_check st plate data d :
  ¬ known st plate →
  data !! "driver_id" = Some (PyInt d) → d ≠ 0 → int64 d →
  (driver_exists st d →
     Car.post st plate data =
       Some (mk_db (cars st ++
                      [CarModel.mk (Some (next_id (CarModel.id <$> cars st))) plate (Some d)])
               (drivers st) (positions st),
             (CarJson (CarModel.mk_json (Some (next_id (CarModel.id <$> cars st)))
                         plate (Some d)), 201)))
  ∧ (¬ driver_exists st d →
     Car.post st plate data = Some (st, (Message "Driver not found", 400))).
Proof.
  intros Hnew Hd Hnz Hd64. split; [|by apply car_post_unknown_driver].
  intros [row Hrow]%driver_exists_find. apply find_car_None in Hnew.
  unfold Car.post, dict_get. rewrite Hnew, Hd. simpl. rewrite Hrow.
  rewrite bool_decide_eq_true_2 by done. by rewrite andb_false_r.
Qed.

Lemma car_post_driver_check_witness :
  Car.post Sample.fleet "ABC123" Scenario.driver_one =
    Some (mk_db [Sample.xyz999; CarModel.mk (Some 2) "ABC123" (Some 1)]
            [Sample.alice] [],
          (CarJson (CarModel.mk_json (Some 2) "ABC123" (Some 1)), 201))
  ∧ Car.post Sample.fleet "ABC123" Scenario.driver_nine =
      Some (Sample.fleet, (Message "Driver not found", 400)).
Proof.
  split.
  - apply (proj1 (car_post_driver_check Sample.fleet "ABC123" Scenario.driver_one 1
                    ltac:(unfold known; simpl; by intros [=]%list_elem_of_singleton)
                    eq_refl ltac:(lia) ltac:(unfold int64; lia))).
    unfold driver_exists. simpl. constructor.
  - apply (proj2 (car_post_driver_check Sample.fleet "ABC123" Scenario.driver_nine 9
                    ltac:(unfold known; simpl; by intros [=]%list_elem_of_singleton)
                    eq_refl ltac:(lia) ltac:(unfold int64; lia))).
    unfold driver_exists. simpl. by intros [=]%list_elem_of_singleton.
Defined.

(** X19: updating a known car with a non-zero integer [driver_id], one
    of the 64-bit integers a key can be, sets the car's driver and answers
    200 with the updated car when the driver exists, and answers [Driver
    not found] (400) without any change when it does not. *)
Theorem car_put_driver_check st plate car data d :
  CarModel.find_by_attribute (license_plate_is plate) (cars st) = Some car →
  data !! "driver_id" = Some (PyInt d) → d ≠ 0 → int64 d →
  (driver_exists st d →
     ∃ st',
       Car.put st plate data =
         Some (st', (CarJson (CarModel.mk_json (CarModel.id car) plate (Some d)), 200))
       ∧ driver_of st' plate = Some (Some d))
  ∧ (¬ driver_exists st d →
     Car.put st plate data = Some (st, (Message "Driver not found", 400))).
Proof.
  intros Hcar Hd Hnz Hd64. split.
  - intros [row Hrow]%driver_exists_find.
    exists (update_car st (CarModel.with_driver_id car (Some d))). split.
    + unfold Car.put, dict_get. rewrite Hcar, Hd. simpl. rewrite Hrow.
      rewrite bool_decide_eq_true_2 by done. rewrite andb_false_r.
      unfold CarModel.json. simpl. by rewrite (find_car_plate _ _ _ Hcar).
    + unfold driver_of. erewrite find_car_update; [done|exact Hcar|done|].
      simpl. by eapply find_car_plate.
  - apply car_put_unknown_driver; [|done..]. apply known_find. by exists car.
Qed.

Lemma car_put_driver_check_witness :
  (∃ st', Car.put Sample.fleet "XYZ999" Scenario.driver_one =
            Some (st', (CarJson (CarModel.mk_json (Some 1) "XYZ999" (Some 1)), 200))
          ∧ driver_of st' "XYZ999" = Some (Some 1))
  ∧ Car.put Sample.fleet "XYZ999" Scenario.driver_nine =
      Some (Sample.fleet, (Message "Driver not found", 400)).
Proof.
  split.
  - apply (proj1 (car_put_driver_check Sample.fleet "XYZ999" Sample.xyz999
                    Scenario.driver_one 1 eq_refl eq_refl ltac:(lia)
                    ltac:(unfold int64; lia))).
    unfold driver_exists. simpl. constructor.
  - apply (proj2 (car_put_driver_check Sample.fleet "XYZ999" Sample.xyz999
                    Scenario.driver_nine 9 eq_refl eq_refl ltac:(lia)
                    ltac:(unfold int64; lia))).
    unfold driver_exists. simpl. by intros [=]%list_elem_of_singleton.
Defined.

Lemma car_post_without_driver_witness :
  Car.post Sample.fleet "ABC123" ∅ =
    Some (mk_db [Sample.xyz999; CarModel.mk (Some 2) "ABC123" None] [Sample.alice] [],
          (CarJson (CarModel.mk_json (Some 2) "ABC123" None), 201)).
Proof.
  apply (car_post_without_driver Sample.fleet "ABC123" ∅).
  - unfold known. simpl. by intros [=]%list_elem_of_singleton.
  - left. reflexivity.
Defined.

Lemma car_put_without_driver_witness :
  ∃ st', Car.put Sample.assigned "XYZ999" Sample.driver_null =
           Some (st', (CarJson (CarModel.mk_json (Some 1) "XYZ999" None), 200))
         ∧ CarModel.driver_id <$>
             CarModel.find_by_attribute (license_plate_is "XYZ999") (cars st')
           = Some None.
Proof.
  apply (car_put_without_driver Sample.assigned "XYZ999"
           (CarModel.mk (Some 1) "XYZ999" (Some 1)) Sample.driver_null eq_refl).
  right. reflexivity.
Defined.

(** ** Keys after a deletion *)

Lemma filter_other_keys (l : list CarModel.t) (key : option Z) :
  key ∉ CarModel.id <$> l →
  filter (fun row => CarModel.id row ≠ key) l = l.
Proof.
  induction l as [|row l IH]; [done|].
  rewrite fmap_cons, not_elem_of_cons. intros [Hrow Hl].
  rewrite filter_cons_True by congruence. by rewrite IH.
Qed.

(** X20: the key of a deleted car is given out again.  Create a car,
    record a position for it, delete it, and create a car (under the same
    plate or another): the new car receives the key the deleted one had, and
    the position recorded for the deleted car is listed as the new car's. *)
Theorem recreated_car_inherits_positions
    st plate data1 st1 b1 data now nominatim st2 r2 st3 new_plate data3 st4 b4 :
  Car.post st plate data1 = Some (st1, (b1, 201)) →
  CarPosition.post st1 plate data now nominatim = Ok (st2, (r2, 201)) →
  Car.delete st2 plate = (st3, (Message "Car deleted", 200)) →
  Car.post st3 new_plate data3 = Some (st4, (b4, 201)) →
  ∃ p js,
    PositionModel.date p = now
    ∧ p ∈ positions st2
    ∧ CarPositions.get st4 new_plate = (PositionsJson js, 200)
    ∧ PositionModel.json p ∈ js.
Proof.
  intros [[_ [=]] | (Hnew & key1 & -> & _)]%car_post_db Hingest Hdelete Hcreate.
  pose proof (find_car_new_row plate (cars st)
                (CarModel.mk (Some (next_id (CarModel.id <$> cars st))) plate key1)
                Hnew eq_refl) as Hc1.
  apply position_post_db in Hingest
    as [[_ Hr] | (car & lat & lon & a & Hcar & _ & ->)]; [done|].
  simpl in Hcar. rewrite Hc1 in Hcar. injection Hcar as <-.
  apply car_delete_db in Hdelete as [[_ [=]] | (car & Hcar & -> & _)].
  simpl in Hcar. rewrite Hc1 in Hcar. injection Hcar as <-.
  apply car_post_db in Hcreate as [[_ [=]] | (Hnew4 & key4 & -> & _)].
  unfold known, delete_car in *. simpl in *.
  rewrite filter_app, filter_cons_False, filter_nil, app_nil_r in *
    by (simpl; intros Hne; by apply Hne).
  rewrite (filter_other_keys (cars st) _ (next_id_fresh _)) in *.
  eexists (PositionModel.mk _ _ _ _ _ _), _.
  split; [reflexivity|]. split; [apply elem_of_app; right; by left|].
  unfold CarPositions.get. simpl.
  rewrite (find_car_new_row new_plate (cars st) (CarModel.mk _ new_plate key4)
             Hnew4 eq_refl). simpl.
  split; [reflexivity|].
  apply list_elem_of_fmap_2, list_elem_of_filter. split; [done|].
  apply elem_of_app. right. by left.
Qed.

Lemma recreated_car_inherits_positions_witness :
  ∃ p js,
    PositionModel.date p = 7
    ∧ p ∈ positions Scenario.created_tracked
    ∧ CarPositions.get Scenario.recreated "DEF456" = (PositionsJson js, 200)
    ∧ PositionModel.json p ∈ js.
Proof.
  exact (recreated_car_inherits_positions Sample.fleet "ABC123" Sample.driver_null
           Scenario.created (CarJson (CarModel.mk_json (Some 2) "ABC123" None))
           Sample.new_york 7 Sample.main_street
           Scenario.created_tracked (Message "Position saved")
           Scenario.deleted "DEF456" ∅
           Scenario.recreated (CarJson (CarModel.mk_json (Some 2) "DEF456" None))
           eq_refl eq_refl eq_refl eq_refl).
Defined.

(** ** One driver, several cars *)

(** Rows that kept their plates, and changed only under [plate], are
    found alike under any other plate. *)
Lemma find_car_other_plate plate other (l l' : list CarModel.t) :
  Forall2 (fun row row' => (CarModel.license_plate row = plate
                            ∧ CarModel.license_plate row' = plate)
                           ∨ row' = row) l l' →
  other ≠ plate →
  CarModel.find_by_attribute (license_plate_is other) l' =
  CarModel.find_by_attribute (license_plate_is other) l.
Proof.
  intros Hrows Hother. unfold CarModel.find_by_attribute.
  induction Hrows as [|row row' l l' Hrow _ IH]; [done|].
  destruct Hrow as [[Hplate Hplate'] | ->].
  - rewrite !filter_cons_False; [exact IH| |];
      unfold license_plate_is; rewrite String.eqb_eq; congruence.
  - rewrite !filter_cons. case_decide; [done|exact IH].
Qed.

Lemma update_car_other_plate st plate car key other :
  NoDup (CarModel.id <$> cars st) →
  CarModel.find_by_attribute (license_plate_is plate) (cars st) = Some car →
  other ≠ plate →
  CarModel.find_by_attribute (license_plate_is other)
    (cars (update_car st (CarModel.with_driver_id car key))) =
  CarModel.find_by_attribute (license_plate_is other) (cars st).
Proof.
  intros Hids Hcar Hother. apply (find_car_other_plate plate); [|done].
  eapply Forall2_impl;
    [apply (update_car_rows st car (CarModel.with_driver_id car key) Hids);
     [by eapply find_car_elem|done]|].
  intros row row' [[-> ->] | [_ ->]]; [left|by right].
  split; simpl; by eapply find_car_plate.
Qed.

(** X23: a driver may drive several cars: under distinct car keys,
    assigning an existing driver to one known car and then to another both
    succeed, and afterwards each of the two cars has that driver. *)
Theorem assign_one_driver_to_two_cars st plate1 plate2 d :
  NoDup (CarModel.id <$> cars st) →
  known st plate1 → known st plate2 → plate1 ≠ plate2 →
  driver_exists st d →
  ∃ st1 st2,
    AssignDriver.post st plate1 d = (st1, (Message "Driver assigned", 200))
    ∧ AssignDriver.post st1 plate2 d = (st2, (Message "Driver assigned", 200))
    ∧ driver_of st2 plate1 = Some (Some d)
    ∧ driver_of st2 plate2 = Some (Some d).
Proof.
  intros Hids [car1 Hcar1]%known_find [car2 Hcar2]%known_find Hne
         [row Hrow]%driver_exists_find.
  set (st1 := update_car st (CarModel.with_driver_id car1 (Some d))).
  assert (Hfirst : CarModel.find_by_attribute (license_plate_is plate1) (cars st1)
                   = Some (CarModel.with_driver_id car1 (Some d))).
  { apply (find_car_update st plate1 car1); [done..|]. simpl. by eapply find_car_plate. }
  assert (Hsecond : CarModel.find_by_attribute (license_plate_is plate2) (cars st1)
                    = Some car2).
  { unfold st1. rewrite (update_car_other_plate st plate1); [done..|]. congruence. }
  assert (Hids1 : NoDup (CarModel.id <$> cars st1))
    by (unfold st1; by rewrite update_car_ids).
  exists st1, (update_car st1 (CarModel.with_driver_id car2 (Some d))).
  split; [|split; [|split]].
  - unfold AssignDriver.post. by rewrite Hcar1, Hrow.
  - unfold AssignDriver.post. rewrite Hsecond.
    replace (drivers st1) with (drivers st) by done. by rewrite Hrow.
  - unfold driver_of.
    rewrite (update_car_other_plate st1 plate2); [by rewrite Hfirst|done..].
  - unfold driver_of. erewrite find_car_update; [done|exact Hsecond|done|].
    simpl. by eapply find_car_plate.
Qed.

Lemma assign_one_driver_to_two_cars_witness :
  ∃ st1 st2,
    AssignDriver.post Scenario.created "XYZ999" 1 =
      (st1, (Message "Driver assigned", 200))
    ∧ AssignDriver.post st1 "ABC123" 1 = (st2, (Message "Driver assigned", 200))
    ∧ driver_of st2 "XYZ999" = Some (Some 1)
    ∧ driver_of st2 "ABC123" = Some (Some 1).
Proof.
  apply assign_one_driver_to_two_cars.
  - simpl. apply NoDup_cons. split; [|apply NoDup_singleton].
    by intros [=]%list_elem_of_singleton.
  - unfold known. simpl. constructor.
  - unfold known. simpl. do 2 constructor.
  - discriminate.
  - unfold driver_exists. simpl. constructor.
Defined.
